(** * SF dispatch monitor (monitor.py): formatter, notifier and run controller

    A shallow embedding of [src/monitor.py] and proofs of the properties its
    specification states.  The development follows the source top-down:

    - [Py]        the few Python notions the script relies on: JSON scalars,
                  truthiness, [or], [str()], [str.replace], exceptions;
    - [Datetime]  [datetime] values, [strftime] as [format_call] uses it,
                  and a reference parser for ISO-8601 timestamps;
    - [Monitor]   the script itself: [format_call], [send_notification],
                  [send_notification_with_backoff], [check_and_notify],
                  [main], run against an explicit network and state file. *)

From Stdlib Require Import ZArith Strings.String Strings.Ascii Numbers.DecimalString.
From stdpp Require Import gmap strings list fin_maps.

Local Open Scope string_scope.
Local Open Scope Z_scope.
Local Open Scope list_scope.

(* ===================================================================== *)
(** ** Python values and exceptions                                       *)
(* ===================================================================== *)

Module Py.

(** The JSON scalars that occur in the records of the dataset and in the
    state file.  The open-data endpoint serialises text and number columns
    as JSON strings and checkbox columns as JSON booleans; a missing column
    is an absent key, which [dict.get] turns into [None]. *)
Inductive value : Type :=
  | VNone
  | VBool (b : bool)
  | VStr (s : string).

#[global] Instance value_eq_dec : EqDecision value.
Proof. solve_decision. Defined.

Definition value_code (v : value) : option (bool + string) :=
  match v with
  | VNone => None
  | VBool b => Some (inl b)
  | VStr s => Some (inr s)
  end.

Definition value_decode (c : option (bool + string)) : value :=
  match c with
  | None => VNone
  | Some (inl b) => VBool b
  | Some (inr s) => VStr s
  end.

#[global] Instance value_countable : Countable value.
Proof.
  apply (inj_countable' value_code value_decode).
  intros []; reflexivity.
Defined.

(** Exceptions the script can meet. [HTTPError] is what
    [Response.raise_for_status] raises; [ConnectionError] stands for every
    transport failure of [requests] (refused connection, timeout). *)
Inductive exn : Type :=
  | ValueError
  | AttributeError
  | HTTPError (status_code : Z)
  | ConnectionError.

Inductive outcome (A : Type) : Type :=
  | Returns (a : A)
  | Raises (e : exn).
Arguments Returns {A} a.
Arguments Raises {A} e.

(** [bool(v)] *)
Definition truthy (v : value) : bool :=
  match v with
  | VNone => false
  | VBool b => b
  | VStr s => negb (String.eqb s "")
  end.

(** [a or b] *)
Definition py_or (a b : value) : value := if truthy a then a else b.

(** [str(v)], as an f-string field renders it. *)
Definition py_str (v : value) : string :=
  match v with
  | VNone => "None"
  | VBool true => "True"
  | VBool false => "False"
  | VStr s => s
  end.

(** [s.replace(old, new)] for a one-character [old]. *)
Fixpoint str_replace (old : ascii) (new : string) (s : string) : string :=
  match s with
  | EmptyString => EmptyString
  | String c rest =>
      if Ascii.eqb c old then new +:+ str_replace old new rest
      else String c (str_replace old new rest)
  end.


(** [v.replace(old, new)]: only [str] has the method. *)
Definition method_replace (v : value) (old : ascii) (new : string) : outcome string :=
  match v with
  | VStr s => Returns (str_replace old new s)
  | _ => Raises AttributeError
  end.

(** [s[n:]] *)
Fixpoint str_drop (n : nat) (s : string) : string :=
  match n, s with
  | O, _ => s
  | S n', String _ rest => str_drop n' rest
  | S _, EmptyString => EmptyString
  end.

(** [s[:n]] *)
Definition str_take (n : nat) (s : string) : string := String.substring 0 n s.

Definition newline : string := String (Ascii.ascii_of_nat 10) EmptyString.

(** [sep.join(lines)] *)
Definition str_join (sep : string) (lines : list string) : string :=
  String.concat sep lines.

#[global] Instance outcome_ret : MRet outcome := fun A a => Returns a.
#[global] Instance outcome_bind : MBind outcome := fun A B f m =>
  match m with
  | Returns a => f a
  | Raises e => Raises e
  end.

(** [try: body except: handler], with a bare [except] that catches all. *)
Definition try_except {A : Type} (body : outcome A) (handler : outcome A) : outcome A :=
  match body with
  | Returns a => Returns a
  | Raises _ => handler
  end.

(** A dict with string keys, as [json] decodes an object. *)
Abbreviation dict := (gmap string value).

(** [d.get(k)] and [d.get(k, default)] *)
Definition dict_get (d : dict) (k : string) : value := default VNone (d !! k).
Definition dict_get_or (d : dict) (k : string) (dflt : value) : value :=
  default dflt (d !! k).

End Py.
Export Py.

(* ===================================================================== *)
(** ** [datetime.fromisoformat] and [datetime.strftime]                   *)
(* ===================================================================== *)

(** The standard library is not part of the script.  [format_call] is
    embedded for an arbitrary [datetime.fromisoformat], and what is proved
    about the timestamp holds for every parser.  [fromisoformat] below is a
    reference parser for the extended form
    [YYYY-MM-DD[*HH[:MM[:SS[.f...]]][+HH:MM[:SS[.ffffff]]]]], with fields made of
    ASCII digits and every rejection an exception; the interpreter accepts
    these forms and, depending on its version, others.  It is the parser the
    concrete runs of this development are evaluated with.  [strftime] is
    modelled for the one format string the script uses. *)
Module Datetime.

Record datetime : Type := mk_datetime {
  year : Z; month : Z; day : Z;
  hour : Z; minute : Z; second : Z; microsecond : Z;
  utcoffset : option Z  (* tzinfo, as a signed offset in microseconds *)
}.

Definition is_digit (c : ascii) : bool :=
  let n := nat_of_ascii c in (48 <=? n)%nat && (n <=? 57)%nat.

Definition digit_val (c : ascii) : Z := Z.of_nat (nat_of_ascii c) - 48.

Fixpoint int_digits_from (acc : Z) (s : string) : outcome Z :=
  match s with
  | EmptyString => Returns acc
  | String c rest =>
      if is_digit c then int_digits_from (10 * acc + digit_val c) rest
      else Raises ValueError
  end.

(** [int(s[0:n])] for a field of exactly [n] digits. *)
Definition int_field (n : nat) (s : string) : outcome Z :=
  let f := str_take n s in
  if (String.length f =? n)%nat && negb (n =? 0)%nat
  then int_digits_from 0 f else Raises ValueError.

Definition expect_char (c : ascii) (i : nat) (s : string) : outcome unit :=
  match String.get i s with
  | Some c' => if Ascii.eqb c' c then Returns tt else Raises ValueError
  | None => Raises ValueError
  end.

(** [_parse_isoformat_date(dtstr)] *)
Definition parse_isoformat_date (dtstr : string) : outcome (Z * Z * Z) :=
  y ← int_field 4 dtstr;
  _ ← expect_char "-" 4 dtstr;
  m ← int_field 2 (str_drop 5 dtstr);
  _ ← expect_char "-" 7 dtstr;
  d ← int_field 2 (str_drop 8 dtstr);
  Returns (y, m, d).

(** The loop of [_parse_hh_mm_ss_ff]: up to [remaining] two-digit components
    separated by colons; returns them with the unread rest. *)
Fixpoint parse_hh_mm_ss (remaining : nat) (tstr : string) : outcome (list Z * string) :=
  match remaining with
  | O => Returns ([], tstr)
  | S k =>
      v ← int_field 2 tstr;
      let rest := str_drop 2 tstr in
      match rest, k with
      | EmptyString, _ => Returns ([v], rest)
      | _, O => Returns ([v], rest)
      | String c rest', _ =>
          if Ascii.eqb c ":" then
            r ← parse_hh_mm_ss k rest';
            Returns (v :: r.1, r.2)
          else Raises ValueError
      end
  end.

(** The fraction of a second, in microseconds: one digit or more, all of
    them digits, of which the first six count. *)
Definition parse_fraction (frac : string) : outcome Z :=
  match frac with
  | EmptyString => Raises ValueError
  | String _ _ =>
      _ ← int_digits_from 0 frac;
      let to_parse := str_take 6 frac in
      us ← int_digits_from 0 to_parse;
      Returns (us * 10 ^ Z.of_nat (6 - String.length to_parse))
  end.

(** [_parse_hh_mm_ss_ff(tstr)]: [HH[:MM[:SS[.f...]]]] *)
Definition parse_hh_mm_ss_ff (tstr : string) : outcome (Z * Z * Z * Z) :=
  r ← parse_hh_mm_ss 3 tstr;
  let comps := r.1 in
  let hh := nth 0 comps 0 in
  let mm := nth 1 comps 0 in
  let ss := nth 2 comps 0 in
  match r.2 with
  | EmptyString => Returns (hh, mm, ss, 0)
  | String c frac =>
      if Ascii.eqb c "." then
        us ← parse_fraction frac; Returns (hh, mm, ss, us)
      else Raises ValueError
  end.

(** [tstr.find('-') + 1 or tstr.find('+') + 1]: 0 when neither occurs. *)
Definition tz_pos (tstr : string) : nat :=
  match String.index 0 "-" tstr with
  | Some i => S i
  | None =>
      match String.index 0 "+" tstr with
      | Some i => S i
      | None => O
      end
  end.

Definition micros (hh mm ss us : Z) : Z :=
  ((hh * 60 + mm) * 60 + ss) * 1000000 + us.

(** [_parse_isoformat_time(tstr)] *)
Definition parse_isoformat_time (tstr : string) : outcome (Z * Z * Z * Z * option Z) :=
  if (String.length tstr <? 2)%nat then Raises ValueError else
  let p := tz_pos tstr in
  let timestr := if (0 <? p)%nat then str_take (p - 1) tstr else tstr in
  t ← parse_hh_mm_ss_ff timestr;
  let '(hh, mm, ss, us) := t in
  if (0 <? p)%nat then
    let tzstr := str_drop p tstr in
    let n := String.length tzstr in
    if (n =? 5)%nat || (n =? 8)%nat || (n =? 15)%nat then
      z ← parse_hh_mm_ss_ff tzstr;
      let '(zh, zm, zs, zu) := z in
      let tzsign := if decide (String.get (p - 1) tstr = Some "-"%char) then -1 else 1 in
      let off := tzsign * micros zh zm zs zu in
      (* timezone(offset) wants the offset strictly within a day *)
      if (Z.abs off <? micros 24 0 0 0) then Returns (hh, mm, ss, us, Some off)
      else Raises ValueError
    else Raises ValueError
  else Returns (hh, mm, ss, us, None).

Definition is_leap (y : Z) : bool :=
  (y mod 4 =? 0) && (negb (y mod 100 =? 0) || (y mod 400 =? 0)).

Definition days_in_month (y m : Z) : Z :=
  if m =? 2 then (if is_leap y then 29 else 28)
  else if (m =? 4) || (m =? 6) || (m =? 9) || (m =? 11) then 30
  else 31.

Definition between (lo x hi : Z) : bool := (lo <=? x) && (x <=? hi).

(** The range checks of the [datetime] constructor. *)
Definition make_datetime (y m d hh mm ss us : Z) (tz : option Z) : outcome datetime :=
  if between 1 y 9999 && between 1 m 12 && between 1 d (days_in_month y m)
     && between 0 hh 23 && between 0 mm 59 && between 0 ss 59
     && between 0 us 999999
  then Returns (mk_datetime y m d hh mm ss us tz)
  else Raises ValueError.

(** The ranges the [datetime] constructor enforces: every [datetime] object
    of the interpreter is within them. *)
Definition valid_datetime (dt : datetime) : Prop :=
  1 <= year dt <= 9999 ∧ 1 <= month dt <= 12
  ∧ 1 <= day dt <= days_in_month (year dt) (month dt)
  ∧ 0 <= hour dt <= 23 ∧ 0 <= minute dt <= 59 ∧ 0 <= second dt <= 59
  ∧ 0 <= microsecond dt <= 999999.

(** The reference parser: a date alone, or a date, one separator character
    and a time, which then has to be there. *)
Definition fromisoformat (date_string : string) : outcome datetime :=
  let dstr := str_take 10 date_string in
  let tstr := str_drop 11 date_string in
  dc ← parse_isoformat_date dstr;
  let '(y, m, d) := dc in
  if (String.length date_string <=? 10)%nat then make_datetime y m d 0 0 0 0 None
  else
    tc ← parse_isoformat_time tstr;
    let '(hh, mm, ss, us, tz) := tc in
    make_datetime y m d hh mm ss us tz.

Definition decimal (n : Z) : string := NilZero.string_of_uint (N.to_uint (Z.to_N n)).

Definition decimal2 (n : Z) : string :=
  if n <? 10 then "0" +:+ decimal n else decimal n.

(** [%-I]: the hour on a 12-hour clock, no padding. *)
Definition hour12 (h : Z) : Z := if h mod 12 =? 0 then 12 else h mod 12.

(** [dt.strftime("%-m/%-d/%Y %-I:%M %p")]: month, day and 12-hour clock hour
    without padding, the year in decimal, the minute on two digits. *)
Definition strftime (dt : datetime) : string :=
  decimal (month dt) +:+ "/" +:+ decimal (day dt) +:+ "/" +:+ decimal (year dt)
  +:+ " " +:+ decimal (hour12 (hour dt)) +:+ ":" +:+ decimal2 (minute dt)
  +:+ " " +:+ (if hour dt <? 12 then "AM" else "PM").

End Datetime.

(* ===================================================================== *)
(** ** The script                                                         *)
(* ===================================================================== *)

Module Monitor.
Import Datetime.

(** *** The world the script runs in *)

(** What an HTTP request comes back with: a response with its status code
    and decoded body, or no response at all (a transport failure). *)
Inductive reply (A : Type) : Type :=
  | Response (status : Z) (body : A)
  | NoResponse.
Arguments Response {A} status body.
Arguments NoResponse {A}.

(** The remote services during one run.  [metadata] answers the GET of
    [METADATA_URL] with the view's [rowsUpdatedAt]; [dataset] answers the GET
    of [BASE_URL] with the matching records, filtered, ordered and limited by
    the server; [ntfy k] answers the [k]-th POST to [NTFY_URL] (counting from
    0). *)
Record network : Type := mk_network {
  metadata : reply value;
  dataset : reply (list dict);
  ntfy : nat -> reply unit
}.

(** The content of [STATE_FILE].  The token is only ever compared for
    equality; a numeric [rowsUpdatedAt] is carried as its text. *)
Record state : Type := mk_state {
  seen_ids : list value;
  rows_updated_at : value
}.

(** Lines the script prints; the leading timestamp of some is left out. *)
Inductive line : Type :=
  | PNotificationSent (title : string)
  | PRetrying (backoff : Z)
  | PMaxRetries
  | PFailedToSend (e : exn)
  | PNoUpdate
  | PUpdateDetected
  | PFirstRun (n : nat)
  | PFound (n : nat)
  | PStopped (i n : nat)
  | PNoNewCalls
  | PBanner
  | PError (e : exn)
  | PRunComplete.

(** What a run does to the outside, in order. *)
Inductive event : Type :=
  | GetMetadata
  | GetCalls (limit : Z)
  | Post (title message : string) (r : reply unit)
  | Sleep (seconds : Z)
  | WriteState (s : state)
  | Printed (l : line).

Record world : Type := mk_world {
  state_file : option state;   (* None: the file does not exist *)
  posts : nat;                 (* POSTs made so far in this run *)
  log : list event
}.

(** Computations of the script: they read and change the world and either
    return or raise. *)
Definition M (A : Type) : Type := world -> outcome A * world.

#[global] Instance M_ret : MRet M := fun A a w => (Returns a, w).
#[global] Instance M_bind : MBind M := fun A B f m w =>
  match m w with
  | (Returns a, w') => f a w'
  | (Raises e, w') => (Raises e, w')
  end.

Definition raise {A : Type} (e : exn) : M A := fun w => (Raises e, w).

(** [try: body except Exception as e: handler e] *)
Definition catch {A : Type} (body : M A) (handler : exn -> M A) : M A := fun w =>
  match body w with
  | (Returns a, w') => (Returns a, w')
  | (Raises e, w') => handler e w'
  end.

(** A pure computation that may raise, run inside [M]. *)
Definition lift {A : Type} (o : outcome A) : M A := fun w => (o, w).

Definition emit (e : event) : M unit := fun w =>
  (Returns tt, mk_world (state_file w) (posts w) (log w ++ [e])).

Definition print (l : line) : M unit := emit (Printed l).
Definition sleep (seconds : Z) : M unit := emit (Sleep seconds).

(** [resp.raise_for_status()]: 4xx and 5xx raise. *)
Definition is_error_status (status : Z) : bool := (400 <=? status) && (status <? 600).

Definition raise_for_status {A : Type} (r : reply A) : M A :=
  match r with
  | NoResponse => raise ConnectionError
  | Response status body =>
      if is_error_status status then raise (HTTPError status) else mret body
  end.

(** *** Configuration *)

Definition max_backoff : Z := 64.
Definition default_max_retries : nat := 5.
Definition default_limit : Z := 200.

(** *** [load_state], [save_state] *)

Definition load_state : M state := fun w =>
  match state_file w with
  | Some st => (Returns st, w)
  | None => (Returns (mk_state [] VNone), w)
  end.

Definition save_state (st : state) : M unit := fun w =>
  (Returns tt, mk_world (Some st) (posts w) (log w ++ [WriteState st])).

(** *** [get_rows_updated_at], [fetch_recent_calls] *)

Definition get_rows_updated_at (net : network) : M value :=
  emit GetMetadata;;
  raise_for_status (metadata net).

Definition fetch_recent_calls (net : network) (limit : Z) : M (list dict) :=
  emit (GetCalls limit);;
  raise_for_status (dataset net).

(** *** [format_call] *)

Definition redaction_marker : string := "[Sensitive - location suppressed]".

(** [format_call] calls [datetime.fromisoformat], which is not the
    script's own: the definitions marked [_with] take it as [parse], and the
    plain ones are what the reference parser gives. *)

(** The body of the [try] block: parse and reformat the timestamp. *)
Definition reformat_received_with (parse : string -> outcome datetime)
    (received : value) : outcome value :=
  s ← method_replace received "Z" "+00:00";
  dt ← parse s;
  mret (VStr (strftime dt)).

(** The [try: ... except: received_formatted = received] of [format_call]. *)
Definition try_reformat_with (parse : string -> outcome datetime)
    (received : value) : outcome value :=
  try_except (reformat_received_with parse received) (mret received).

(** The [lines] list of [format_call], as it stands before the final join. *)
Definition format_lines_with (parse : string -> outcome datetime)
    (call : dict) : outcome (list string) :=
  let received := dict_get_or call "received_datetime" (VStr "") in
  received_formatted ←
    (if truthy received then try_reformat_with parse received
     else mret (VStr "Unknown time"));
  let call_type := py_or (dict_get call "call_type_original_desc") (VStr "Unknown") in
  let intersection := py_or (dict_get call "intersection_name") (VStr "Unknown location") in
  let neighborhood := py_or (dict_get call "analysis_neighborhood") (VStr "") in
  let agency := py_or (dict_get call "agency") (VStr "Unknown agency") in
  let sensitive := dict_get_or call "sensitive_call" (VBool false) in
  let intersection := if truthy sensitive then VStr redaction_marker else intersection in
  let lines := [ "Time: " +:+ py_str received_formatted;
                 "Type: " +:+ py_str call_type;
                 "Location: " +:+ py_str intersection ] in
  let lines :=
    if truthy neighborhood && negb (truthy sensitive)
    then lines ++ ["Neighborhood: " +:+ py_str neighborhood] else lines in
  let lines := lines ++ ["Agency: " +:+ py_str agency] in
  mret lines.

Definition format_call_with (parse : string -> outcome datetime)
    (call : dict) : outcome string :=
  lines ← format_lines_with parse call;
  mret (str_join newline lines).

Definition reformat_received (received : value) : outcome value :=
  reformat_received_with fromisoformat received.

Definition try_reformat (received : value) : outcome value :=
  try_reformat_with fromisoformat received.

Definition format_lines (call : dict) : outcome (list string) :=
  format_lines_with fromisoformat call.

Definition format_call (call : dict) : outcome string :=
  format_call_with fromisoformat call.

(** *** [send_notification] *)

Definition send_notification (net : network) (title message : string) : M unit :=
  r ← (fun w =>
         let r := ntfy net (posts w) in
         (Returns r, mk_world (state_file w) (S (posts w))
                              (log w ++ [Post title message r])));
  raise_for_status r;;
  print (PNotificationSent title).

(** *** [send_notification_with_backoff] *)

(** One iteration of the [for attempt in range(max_retries)] loop: [inl b]
    is [return b], [inr backoff'] goes on to the next attempt. *)
Definition backoff_attempt (net : network) (title message : string)
    (max_retries : nat) (attempt : nat) (backoff : Z) : M (bool + Z) :=
  catch (send_notification net title message;; mret (inl true))
    (fun e =>
       match e with
       | HTTPError status_code =>
           if status_code =? 429 then
             if Z.of_nat attempt <? Z.of_nat max_retries - 1 then
               print (PRetrying backoff);;
               sleep backoff;;
               mret (inr (Z.min (backoff * 2) max_backoff))
             else
               print PMaxRetries;; mret (inl false)
           else
             print (PFailedToSend e);; mret (inl false)
       | _ => print (PFailedToSend e);; mret (inl false)
       end).

Fixpoint backoff_loop (net : network) (title message : string)
    (max_retries : nat) (attempts : list nat) (backoff : Z) : M bool :=
  match attempts with
  | [] => mret false
  | attempt :: rest =>
      r ← backoff_attempt net title message max_retries attempt backoff;
      match r with
      | inl b => mret b
      | inr backoff' => backoff_loop net title message max_retries rest backoff'
      end
  end.

Definition send_notification_with_backoff (net : network) (title message : string)
    (max_retries : nat) : M bool :=
  backoff_loop net title message max_retries (seq 0 max_retries) 2.

(** *** [check_and_notify] *)

(** [c.get("id") or c.get("cad_number")] *)
Definition call_id (c : dict) : value :=
  py_or (dict_get c "id") (dict_get c "cad_number").

Definition call_title (c : dict) : string :=
  "SF Dispatch - " +:+ py_str (py_or (dict_get c "call_type_original_desc") (VStr "Unknown")).

(** The [for i, call in enumerate(new_calls)] loop; [n] is [len(new_calls)],
    [sent] is [sent_call_ids] so far. *)
Fixpoint notify_loop (net : network) (n i : nat) (pending : list dict)
    (sent : list value) : M (list value) :=
  match pending with
  | [] => mret sent
  | call :: rest =>
      message ← lift (format_call call);
      success ← send_notification_with_backoff net (call_title call) message
                  default_max_retries;
      if success : bool then
        let cid := call_id call in
        let sent := if truthy cid then sent ++ [cid] else sent in
        (if Z.of_nat i <? Z.of_nat n - 1 then sleep 1 else mret tt);;
        notify_loop net n (S i) rest sent
      else
        print (PStopped (i + 1) n);;
        mret sent
  end.

Definition check_and_notify (net : network) : M unit :=
  st ← load_state;
  let seen : gset value := list_to_set (seen_ids st) in
  let last_updated := rows_updated_at st in
  current_updated ← get_rows_updated_at net;
  if bool_decide (current_updated = last_updated) && bool_decide (seen ≠ ∅) then
    print PNoUpdate
  else
    print PUpdateDetected;;
    calls ← fetch_recent_calls net default_limit;
    let current_ids : gset value := list_to_set (call_id <$> calls) in
    new ←
      (if decide (seen = ∅) then
         (* first run: do not notify, just record state *)
         print (PFirstRun (size current_ids));;
         mret []
       else
         mret (filter (fun c => call_id c ∉ seen) calls));
    sent_call_ids ←
      match new with
      | _ :: _ =>
          print (PFound (length new));;
          notify_loop net (length new) 0 new []
      | [] =>
          (if decide (seen ≠ ∅) then print PNoNewCalls else mret tt);;
          mret []
      end;
    let updated_seen_ids := elements seen ++ sent_call_ids in
    save_state (mk_state updated_seen_ids current_updated).

(** *** [main] *)

(** The run as a process: prints the banner, runs [check_and_notify], and
    ends with an exit code. *)
Definition main (net : network) (w : world) : Z * world :=
  match (print PBanner;; check_and_notify net) w with
  | (Returns _, w') => (0, (print PRunComplete w').2)
  | (Raises e, w') => (1, (print (PError e) w').2)
  end.

(** A run starts cold: only the state file is carried over. *)
Definition run (net : network) (file : option state) : Z * world :=
  main net (mk_world file 0 []).

(** The seen-set a state file holds. *)
Definition seen_set (file : option state) : gset value :=
  match file with
  | Some st => list_to_set (seen_ids st)
  | None => ∅
  end.

Definition token (file : option state) : value :=
  match file with
  | Some st => rows_updated_at st
  | None => VNone
  end.

(** *** Vocabulary of the specification *)

(** The value of [new_calls] in a run that gets as far: empty in a first
    run, else the fetched calls whose identity is not in the seen-set. *)
Definition new_calls (seen : gset value) (calls : list dict) : list dict :=
  if decide (seen = ∅) then []
  else filter (fun c => call_id c ∉ seen) calls.

(** The record's sensitivity flag counts as set. *)
Definition sensitive (call : dict) : Prop :=
  truthy (dict_get_or call "sensitive_call" (VBool false)) = true.

(** Two records that differ at most in location and neighborhood. *)
Definition same_but_location (c c' : dict) : Prop :=
  forall k : string,
    k ≠ "intersection_name" -> k ≠ "analysis_neighborhood" -> c !! k = c' !! k.


Definition is_neighborhood_line (l : string) : bool := String.prefix "Neighborhood: " l.


(** The example record of the specification, and the sample record of
    [test_push.py], which has one more field. *)
Definition example_call : dict :=
  list_to_map [
    ("received_datetime", VStr "2026-02-04T16:58:12.000");
    ("call_type_original_desc", VStr "SIT/LIE ENFORCEMENT");
    ("intersection_name", VStr "CASTRO ST \ STATES ST");
    ("analysis_neighborhood", VStr "Castro/Upper Market");
    ("agency", VStr "Police");
    ("sensitive_call", VBool false) ].

Definition test_call : dict := <["priority_final" := VStr "C"]> example_call.

Definition example_body : string :=
  "Time: 2/4/2026 4:58 PM" +:+ newline +:+
  "Type: SIT/LIE ENFORCEMENT" +:+ newline +:+
  "Location: CASTRO ST \ STATES ST" +:+ newline +:+
  "Neighborhood: Castro/Upper Market" +:+ newline +:+
  "Agency: Police".

(** The same record flagged sensitive. *)
Definition sensitive_example : dict := <["sensitive_call" := VBool true]> example_call.

(** What [raise_for_status] makes of a reply. *)
Definition http_result {A : Type} (r : reply A) : outcome A :=
  match r with
  | NoResponse => Raises ConnectionError
  | Response status body =>
      if is_error_status status then Raises (HTTPError status) else Returns body
  end.

(** The three kinds of answer to a POST: taken (no 4xx or 5xx), HTTP 429,
    and every other failure. *)
Definition accepted (r : reply unit) : bool :=
  match r with
  | Response status _ => negb (is_error_status status)
  | NoResponse => false
  end.

Definition rate_limited (r : reply unit) : bool :=
  match r with
  | Response status _ => status =? 429
  | NoResponse => false
  end.

Definition hard_failure (r : reply unit) : bool :=
  negb (accepted r) && negb (rate_limited r).

Definition is_post (e : event) : bool :=
  match e with Post _ _ _ => true | _ => false end.

(** The POSTs of a log, and the seconds slept, in order. *)
Fixpoint post_events (evs : list event) : list event :=
  match evs with
  | [] => []
  | e :: rest => if is_post e then e :: post_events rest else post_events rest
  end.

(** Events of the notifier: a POST, a wait or a printed line. *)
Definition notifier_event (e : event) : Prop :=
  match e with
  | Post _ _ _ | Sleep _ | Printed _ => True
  | _ => False
  end.

Fixpoint sleeps (evs : list event) : list Z :=
  match evs with
  | [] => []
  | Sleep seconds :: rest => seconds :: sleeps rest
  | _ :: rest => sleeps rest
  end.

(** The wait after the [k]-th rate-limited attempt, counting from 0:
    2, 4, 8, ... seconds, never more than [max_backoff]. *)
Definition backoff_delay (k : nat) : Z := Z.min (2 * 2 ^ Z.of_nat k) max_backoff.

(** The waits of [k] retries in a row that start at [backoff]. *)
Fixpoint delays (backoff : Z) (k : nat) : list Z :=
  match k with
  | O => []
  | S k' => backoff :: delays (Z.min (backoff * 2) max_backoff) k'
  end.

(** How many POSTs a delivery that may make [len] attempts makes when the
    first goes out as POST number [p], and whether it succeeds. *)
Fixpoint attempts_made (replies : nat -> reply unit) (p len : nat) : nat :=
  match len with
  | O => O
  | S len' =>
      if rate_limited (replies p) then S (attempts_made replies (S p) len') else 1%nat
  end.

Fixpoint delivers (replies : nat -> reply unit) (p len : nat) : bool :=
  match len with
  | O => false
  | S len' =>
      if rate_limited (replies p) then delivers replies (S p) len' else accepted (replies p)
  end.

(** A delivery that started in [w] and made [tries] attempts ends in [w']:
    the state file is untouched, the attempts are the next [tries] POSTs, all
    with the same title and message, and between them the script slept
    [backoff_delay 0], [backoff_delay 1], ... *)
Definition delivery_ends (net : network) (title message : string)
    (w w' : world) (tries : nat) : Prop :=
  state_file w' = state_file w
  ∧ posts w' = (posts w + tries)%nat
  ∧ post_events (log w') =
      post_events (log w) ++ map (fun q => Post title message (ntfy net q)) (seq (posts w) tries)
  ∧ sleeps (log w') = sleeps (log w) ++ map backoff_delay (seq 0 (tries - 1)).

(** The first [k] POSTs from number [p] on are answered with HTTP 429. *)
Definition limited_for (net : network) (p k : nat) : Prop :=
  forall j : nat, (j < k)%nat -> rate_limited (ntfy net (p + j)) = true.

Definition fresh_world (file : option state) : world := mk_world file 0 [].

Definition add_events (w : world) (evs : list event) : world :=
  mk_world (state_file w) (posts w) (log w ++ evs).

(** The message sent for a record. *)
Definition call_body (c : dict) : string :=
  match format_call c with
  | Returns message => message
  | Raises _ => ""
  end.

(** What the notification loop does to a list of new calls, by the answers
    the POSTs get, the first POST being number [p]: the identifiers it
    collects, the POSTs it makes, and how many of them. *)
Fixpoint delivered_ids (replies : nat -> reply unit) (p : nat) (pending : list dict)
    : list value :=
  match pending with
  | [] => []
  | c :: rest =>
      if delivers replies p default_max_retries then
        (if truthy (call_id c) then [call_id c] else [])
        ++ delivered_ids replies (p + attempts_made replies p default_max_retries) rest
      else []
  end.

Fixpoint loop_posts (replies : nat -> reply unit) (p : nat) (pending : list dict)
    : list event :=
  match pending with
  | [] => []
  | c :: rest =>
      let k := attempts_made replies p default_max_retries in
      map (fun q => Post (call_title c) (call_body c) (replies q)) (seq p k)
      ++ (if delivers replies p default_max_retries
          then loop_posts replies (p + k) rest else [])
  end.

(** A notification for the record was taken by the push service. *)
Definition delivered (evs : list event) (c : dict) : Prop :=
  exists r : reply unit,
    In (Post (call_title c) (call_body c) r) evs ∧ accepted r = true.

(** The delivery whose first POST is number [p] fails for good: an error
    other than HTTP 429 after at most four 429s, or five 429s in a row. *)
Definition fails_permanently (net : network) (p : nat) : Prop :=
  (exists k : nat, (k < default_max_retries)%nat ∧ limited_for net p k
                   ∧ hard_failure (ntfy net (p + k)) = true)
  ∨ limited_for net p default_max_retries.

(** The log of a run that stops at the short-circuit. *)
Definition skipped_log : list event :=
  [Printed PBanner; GetMetadata; Printed PNoUpdate; Printed PRunComplete].

Definition is_write (e : event) : bool :=
  match e with WriteState _ => true | _ => false end.

Definition is_fetch (e : event) : bool :=
  match e with GetCalls _ => true | _ => false end.

(** A state file with one identifier and the token [t1], and services whose
    metadata query answers 503, resp. whose token is [t1]. *)
Definition state_A : option state := Some (mk_state [VStr "A"] (VStr "t1")).

Definition net_metadata_down : network :=
  mk_network (Response 503 VNone) (Response 200 []) (fun _ => Response 200 tt).

Definition net_unchanged : network :=
  mk_network (Response 200 (VStr "t1")) (Response 200 []) (fun _ => Response 200 tt).

(** A record with an identifier and nothing else. *)
Definition call_with_id (i : string) : dict := {[ "id" := VStr i ]}.

(** The token has changed to [t2] and there is one new call, [B]; the push
    service takes every message. *)
Definition net_one_new : network :=
  mk_network (Response 200 (VStr "t2")) (Response 200 [call_with_id "B"; call_with_id "A"])
    (fun _ => Response 200 tt).


(** A record with neither [id] nor [cad_number]. *)
Definition call_without_id : dict := {[ "call_type_original_desc" := VStr "HOMELESS COMPLAINT" ]}.


(** Every identifier of the seen-set is a real one: not null, not empty. *)
Definition all_identified (file : option state) : Prop :=
  forall id : value, id ∈ seen_set file -> truthy id = true.

(** The first run: no state file, two records fetched. *)
Definition net_first_run : network :=
  mk_network (Response 200 (VStr "t1")) (Response 200 [call_with_id "A"; call_with_id "B"])
    (fun _ => Response 200 tt).

(** A run in which the delivery for [B] is taken and the one for [C] fails,
    and the services at the next run: the token is still [t2], and the push
    service takes everything again. *)
Definition net_partial : network :=
  mk_network (Response 200 (VStr "t2"))
    (Response 200 [call_with_id "B"; call_with_id "C"; call_with_id "A"])
    (fun q => match q with O => Response 200 tt | _ => Response 500 tt end).

Definition net_recovered : network :=
  mk_network (Response 200 (VStr "t2"))
    (Response 200 [call_with_id "B"; call_with_id "C"; call_with_id "A"])
    (fun _ => Response 200 tt).

(** The same, once the dataset has changed again. *)
Definition net_changed_again : network :=
  mk_network (Response 200 (VStr "t3"))
    (Response 200 [call_with_id "B"; call_with_id "C"; call_with_id "A"])
    (fun _ => Response 200 tt).

(** A server that answers 429 twice and then takes the message. *)
Definition net_two_limits : network :=
  mk_network (Response 200 (VStr "t1")) (Response 200 [])
    (fun q => if (q <? 2)%nat then Response 429 tt else Response 200 tt).

(** *** Further vocabulary *)

(** The keys [format_call] reads. *)
Definition format_fields : list string :=
  [ "received_datetime"; "call_type_original_desc"; "intersection_name";
    "analysis_neighborhood"; "agency"; "sensitive_call" ].

Definition same_on_fields (c c' : dict) : Prop :=
  forall k : string, In k format_fields -> c !! k = c' !! k.

(** The condition under which [format_call] appends the Neighborhood line. *)
Definition has_neighborhood (call : dict) : bool :=
  truthy (py_or (dict_get call "analysis_neighborhood") (VStr ""))
  && negb (truthy (dict_get_or call "sensitive_call" (VBool false))).

(** The labels the lines of a record start with, in order. *)
Definition line_labels (call : dict) : list string :=
  ["Time: "; "Type: "; "Location: "]
  ++ (if has_neighborhood call then ["Neighborhood: "] else [])
  ++ ["Agency: "].

Definition is_metadata (e : event) : bool :=
  match e with GetMetadata => true | _ => false end.

Fixpoint count_events (p : event -> bool) (evs : list event) : nat :=
  match evs with
  | [] => O
  | e :: rest => if p e then S (count_events p rest) else count_events p rest
  end.

(** What a log holds after its first write of the state file. *)
Fixpoint after_write (evs : list event) : list event :=
  match evs with
  | [] => []
  | WriteState _ :: rest => rest
  | _ :: rest => after_write rest
  end.

(** The identifiers [if call_id:] lets through, call by call. *)
Fixpoint identified_ids (cs : list dict) : list value :=
  match cs with
  | [] => []
  | c :: rest => (if truthy (call_id c) then [call_id c] else []) ++ identified_ids rest
  end.

(** One POST per call, in the order of the list, the first being POST
    number [p]. *)
Fixpoint posts_in_order (replies : nat -> reply unit) (p : nat) (cs : list dict)
    : list event :=
  match cs with
  | [] => []
  | c :: rest =>
      Post (call_title c) (call_body c) (replies p) :: posts_in_order replies (S p) rest
  end.

(** The records a run can fetch: those of the answer to the record GET. *)
Definition fetched (net : network) : list dict :=
  match http_result (dataset net) with
  | Returns calls => calls
  | Raises _ => []
  end.

(** The run is cut short by the short-circuit. *)
Definition short_circuits (net : network) (file : option state) : Prop :=
  http_result (metadata net) = Returns (token file) ∧ seen_set file ≠ ∅.

(** An upstream request of the run fails. *)
Definition upstream_fails (net : network) (file : option state) : Prop :=
  (exists e, http_result (metadata net) = Raises e)
  ∨ (¬ short_circuits net file ∧ exists e, http_result (dataset net) = Raises e).

(** Runs one after the other, each with the services of its time, handing
    the state file on: the state file at the end and the events of all runs. *)
Fixpoint run_sequence (nets : list network) (file : option state)
    : option state * list event :=
  match nets with
  | [] => (file, [])
  | net :: rest =>
      let r := run net file in
      let s := run_sequence rest (state_file r.2) in
      (s.1, log r.2 ++ s.2)
  end.

Definition total (l : list Z) : Z := foldr Z.add 0 l.

(** A healthy push service over a changed dataset with an identity-less
    record in it. *)
Definition net_healthy : network :=
  mk_network (Response 200 (VStr "t2"))
    (Response 200 [call_with_id "B"; call_without_id; call_with_id "C"; call_with_id "A"])
    (fun _ => Response 200 tt).

(** The push service takes two messages and then fails. *)
Definition net_third_fails : network :=
  mk_network (Response 200 (VStr "t2"))
    (Response 200 [call_with_id "B"; call_with_id "C"; call_with_id "D";
                   call_with_id "E"; call_with_id "A"])
    (fun q => if (q <? 2)%nat then Response 200 tt else Response 500 tt).

End Monitor.

(* ===================================================================== *)
(** ** The formatter                                                      *)
(* ===================================================================== *)

Module FormatterSpec.
Import Datetime Monitor.

Lemma bind_returns {A B : Type} (f : A -> outcome B) (a : A) :
  (Returns a ≫= f) = f a.
Proof. reflexivity. Qed.

Lemma try_reformat_returns (parse : string -> outcome datetime) (v : value) :
  exists v', try_reformat_with parse v = Returns v'.
Proof.
  unfold try_reformat_with, try_except.
  destruct (reformat_received_with parse v) as [v'|e]; eauto.
Qed.

Lemma received_formatted_returns (parse : string -> outcome datetime) (v : value) :
  exists v',
    (if truthy v then try_reformat_with parse v else mret (VStr "Unknown time"))
    = Returns v'.
Proof.
  destruct (truthy v).
  - apply try_reformat_returns.
  - eexists; reflexivity.
Qed.

Lemma format_lines_with_returns (parse : string -> outcome datetime) (call : dict) :
  exists lines, format_lines_with parse call = Returns lines.
Proof.
  unfold format_lines_with.
  destruct (received_formatted_returns parse
              (dict_get_or call "received_datetime" (VStr ""))) as [v Hv].
  rewrite Hv, bind_returns. eexists; reflexivity.
Qed.

Lemma format_call_with_returns (parse : string -> outcome datetime) (call : dict) :
  exists body, format_call_with parse call = Returns body.
Proof.
  unfold format_call_with.
  destruct (format_lines_with_returns parse call) as [lines Hl].
  rewrite Hl, bind_returns. eexists; reflexivity.
Qed.

Lemma format_call_join (call : dict) :
  format_call call = (lines ← format_lines call; mret (str_join newline lines)).
Proof. reflexivity. Qed.

Lemma format_lines_returns (call : dict) : exists lines, format_lines call = Returns lines.
Proof. exact (format_lines_with_returns fromisoformat call). Qed.

Lemma format_call_returns (call : dict) : exists body, format_call call = Returns body.
Proof. exact (format_call_with_returns fromisoformat call). Qed.

Lemma append_cons (c : ascii) (a b : string) : String c a +:+ b = String c (a +:+ b).
Proof. reflexivity. Qed.

Lemma append_empty (b : string) : "" +:+ b = b.
Proof. reflexivity. Qed.










(** The lines are always Time, Type, Location, an optional Neighborhood,
    Agency, in this order. *)
Lemma format_lines_with_shape (parse : string -> outcome datetime) (call : dict) :
  let sens := dict_get_or call "sensitive_call" (VBool false) in
  let nb := py_or (dict_get call "analysis_neighborhood") (VStr "") in
  exists t : string,
    format_lines_with parse call = Returns (
      ("Time: " +:+ t)
      :: ("Type: " +:+ py_str (py_or (dict_get call "call_type_original_desc") (VStr "Unknown")))
      :: ("Location: " +:+ py_str (if truthy sens then VStr redaction_marker
                                   else py_or (dict_get call "intersection_name")
                                              (VStr "Unknown location")))
      :: (if truthy nb && negb (truthy sens) then ["Neighborhood: " +:+ py_str nb] else [])
      ++ ["Agency: " +:+ py_str (py_or (dict_get call "agency") (VStr "Unknown agency"))]).
Proof.
  intros sens nb. unfold format_lines_with.
  destruct (received_formatted_returns parse
              (dict_get_or call "received_datetime" (VStr ""))) as [v Hv].
  rewrite Hv, bind_returns. exists (py_str v).
  fold sens. fold nb. destruct (truthy nb && negb (truthy sens)); reflexivity.
Qed.

Lemma format_lines_shape (call : dict) :
  let sens := dict_get_or call "sensitive_call" (VBool false) in
  let nb := py_or (dict_get call "analysis_neighborhood") (VStr "") in
  exists t : string,
    format_lines call = Returns (
      ("Time: " +:+ t)
      :: ("Type: " +:+ py_str (py_or (dict_get call "call_type_original_desc") (VStr "Unknown")))
      :: ("Location: " +:+ py_str (if truthy sens then VStr redaction_marker
                                   else py_or (dict_get call "intersection_name")
                                              (VStr "Unknown location")))
      :: (if truthy nb && negb (truthy sens) then ["Neighborhood: " +:+ py_str nb] else [])
      ++ ["Agency: " +:+ py_str (py_or (dict_get call "agency") (VStr "Unknown agency"))]).
Proof. exact (format_lines_with_shape fromisoformat call). Qed.






(** What the [datetime] constructor lets through. *)
Lemma make_datetime_valid (y m d hh mm ss us : Z) (tz : option Z) (dt : datetime) :
  make_datetime y m d hh mm ss us tz = Returns dt -> valid_datetime dt.
Proof.
  unfold make_datetime, between, valid_datetime.
  destruct (_ && _) eqn:E; [|discriminate].
  intros [= <-]. simpl.
  repeat (apply andb_prop in E; destruct E as [E ?]). lia.
Qed.

(** The reference parser returns [datetime] objects. *)
Lemma fromisoformat_valid (s : string) (dt : datetime) :
  fromisoformat s = Returns dt -> valid_datetime dt.
Proof.
  unfold fromisoformat.
  destruct (parse_isoformat_date _) as [[[y m] d]|e]; [|discriminate].
  rewrite bind_returns.
  destruct (String.length s <=? 10)%nat.
  - apply make_datetime_valid.
  - destruct (parse_isoformat_time _) as [[[[[hh mm] ss] us] tz]|e]; [|discriminate].
    rewrite bind_returns. apply make_datetime_valid.
Qed.




Lemma same_but_location_format (call call' : dict) :
  sensitive call -> same_but_location call call' ->
  format_call call' = format_call call.
Proof.
  intros Hs Hsame. unfold sensitive, dict_get_or in Hs.
  unfold format_call, format_call_with, format_lines_with, dict_get, dict_get_or.
  rewrite <- (Hsame "received_datetime"), <- (Hsame "call_type_original_desc"),
    <- (Hsame "agency"), <- (Hsame "sensitive_call") by discriminate.
  rewrite Hs. simpl negb. rewrite !andb_false_r. reflexivity.
Qed.

(** C6. For every record whose sensitivity flag is set, the lines of
    [format_call] are exactly Time, Type, Location and Agency: the Location
    line carries the fixed redaction marker instead of the location text,
    there is no Neighborhood line, and the output is the same whatever the
    record's location and neighborhood are. *)
Theorem sensitive_redaction (call : dict) :
  sensitive call ->
  (exists time_line type_line agency_line : string,
     let lines := [time_line; type_line;
                   "Location: [Sensitive - location suppressed]"; agency_line] in
     format_lines call = Returns lines
     ∧ format_call call =
         Returns (time_line +:+ newline +:+ type_line +:+ newline +:+
                  "Location: [Sensitive - location suppressed]" +:+ newline +:+
                  agency_line)
     ∧ Forall (fun l => is_neighborhood_line l = false) lines)
  ∧ (forall call' : dict,
       same_but_location call call' -> format_call call' = format_call call).
Proof.
  intros Hs. split; [|intros call'; now apply same_but_location_format].
  destruct (format_lines_shape call) as [t Ht].
  unfold sensitive in Hs. rewrite Hs in Ht. simpl negb in Ht.
  rewrite andb_false_r in Ht. simpl in Ht.
  eexists _, _, _. cbv zeta. split; [exact Ht|]. split.
  - rewrite format_call_join, Ht. reflexivity.
  - repeat constructor.
Qed.

Lemma sensitive_redaction_witness :
  sensitive sensitive_example
  ∧ (exists time_line type_line agency_line : string,
       let lines := [time_line; type_line;
                     "Location: [Sensitive - location suppressed]"; agency_line] in
       format_lines sensitive_example = Returns lines
       ∧ format_call sensitive_example =
           Returns (time_line +:+ newline +:+ type_line +:+ newline +:+
                    "Location: [Sensitive - location suppressed]" +:+ newline +:+
                    agency_line)
       ∧ Forall (fun l => is_neighborhood_line l = false) lines)
  ∧ (forall call' : dict,
       same_but_location sensitive_example call' ->
       format_call call' = format_call sensitive_example).
Proof.
  split; [vm_compute; reflexivity|].
  apply (sensitive_redaction sensitive_example). vm_compute; reflexivity.
Defined.



(** The sample record of [test_push.py] gives the same body, and a [Z]
    suffix on its timestamp changes nothing. *)
Example format_test_call : format_call test_call = Returns example_body.
Proof. vm_compute. reflexivity. Qed.

Example format_zulu :
  format_call (<["received_datetime" := VStr "2026-02-04T16:58:12Z"]> example_call)
  = Returns example_body.
Proof. vm_compute. reflexivity. Qed.

(** The reference parser wants a time after the separator, and takes a
    fraction of any length. *)
Example fromisoformat_date_only :
  fromisoformat "2026-02-04" = Returns (mk_datetime 2026 2 4 0 0 0 0 None).
Proof. vm_compute. reflexivity. Qed.

Example fromisoformat_empty_time : fromisoformat "2026-02-04T" = Raises ValueError.
Proof. vm_compute. reflexivity. Qed.

Example fromisoformat_short_fraction :
  fromisoformat "2026-02-04T16:58:12.5"
  = Returns (mk_datetime 2026 2 4 16 58 12 500000 None).
Proof. vm_compute. reflexivity. Qed.

Example fromisoformat_long_fraction :
  fromisoformat "2026-02-04T16:58:12.1234567"
  = Returns (mk_datetime 2026 2 4 16 58 12 123456 None).
Proof. vm_compute. reflexivity. Qed.

Example format_empty_time :
  format_lines (<["received_datetime" := VStr "2026-02-04T"]> example_call)
  = Returns [ "Time: 2026-02-04T"; "Type: SIT/LIE ENFORCEMENT";
              "Location: CASTRO ST \ STATES ST";
              "Neighborhood: Castro/Upper Market"; "Agency: Police" ].
Proof. vm_compute. reflexivity. Qed.

Example format_short_fraction :
  format_call (<["received_datetime" := VStr "2026-02-04T16:58:12.5"]> example_call)
  = Returns example_body.
Proof. vm_compute. reflexivity. Qed.

End FormatterSpec.

(* ===================================================================== *)
(** ** The notifier                                                       *)
(* ===================================================================== *)

Module NotifierSpec.
Import Monitor.

Lemma bind_run {A B : Type} (m : M A) (f : A -> M B) (w : world) :
  (m ≫= f) w =
  match m w with
  | (Returns a, w') => f a w'
  | (Raises e, w') => (Raises e, w')
  end.
Proof. reflexivity. Qed.

Ltac world_simpl :=
  cbn [state_file posts log fst snd]; rewrite <- ?app_assoc; cbn [app].

(** Closed decidable facts, by evaluation. *)
Ltac by_decide :=
  match goal with
  | |- ?P => apply (bool_decide_eq_true_1 P); vm_compute; reflexivity
  end.

Lemma raise_for_status_run {A : Type} (r : reply A) (w : world) :
  raise_for_status r w = (http_result r, w).
Proof.
  destruct r as [status body|]; simpl; [|reflexivity].
  destruct (is_error_status status); reflexivity.
Qed.

(** One attempt, by the answer it gets. *)
Lemma backoff_attempt_run (net : network) (title message : string)
    (max_retries attempt : nat) (backoff : Z) (w : world) :
  let r := ntfy net (posts w) in
  let after (evs : list event) :=
    mk_world (state_file w) (S (posts w)) (log w ++ Post title message r :: evs) in
  backoff_attempt net title message max_retries attempt backoff w =
  if accepted r then (Returns (inl true), after [Printed (PNotificationSent title)])
  else if rate_limited r then
    if Z.of_nat attempt <? Z.of_nat max_retries - 1
    then (Returns (inr (Z.min (backoff * 2) max_backoff)),
          after [Printed (PRetrying backoff); Sleep backoff])
    else (Returns (inl false), after [Printed PMaxRetries])
  else
    (Returns (inl false),
     after [Printed (PFailedToSend (match http_result r with
                                  | Raises e => e
                                  | Returns _ => ConnectionError
                                  end))]).
Proof.
  intros r after. subst after.
  unfold backoff_attempt, send_notification, raise_for_status.
  cbv [mbind M_bind catch print sleep emit mret M_ret raise].
  cbn [state_file posts log]. fold r.
  unfold accepted, rate_limited, http_result.
  destruct r as [status []|]; [|world_simpl; reflexivity].
  destruct (is_error_status status) eqn:E; cbn [negb]; [|world_simpl; reflexivity].
  destruct (status =? 429); [|world_simpl; reflexivity].
  destruct (Z.of_nat attempt <? Z.of_nat max_retries - 1); world_simpl; reflexivity.
Qed.

Lemma rate_limited_not_accepted (r : reply unit) :
  rate_limited r = true -> accepted r = false.
Proof.
  destruct r as [status []|]; simpl; [|reflexivity].
  intros H%Z.eqb_eq. subst. reflexivity.
Qed.

Lemma attempts_made_pos (replies : nat -> reply unit) (p len : nat) :
  (0 < len)%nat -> (0 < attempts_made replies p len)%nat.
Proof. destruct len; simpl; [lia|]. destruct (rate_limited _); lia. Qed.

Lemma attempts_made_le (replies : nat -> reply unit) (len : nat) :
  forall p, (attempts_made replies p len <= len)%nat.
Proof.
  induction len as [|len IH]; intros p; simpl; [lia|].
  destruct (rate_limited _); [specialize (IH (S p))|]; lia.
Qed.

Lemma post_events_app (l1 l2 : list event) :
  post_events (l1 ++ l2) = post_events l1 ++ post_events l2.
Proof.
  induction l1 as [|e l1 IH]; simpl; [reflexivity|].
  destruct (is_post e); simpl; now rewrite IH.
Qed.

Lemma sleeps_app (l1 l2 : list event) : sleeps (l1 ++ l2) = sleeps l1 ++ sleeps l2.
Proof.
  induction l1 as [|e l1 IH]; simpl; [reflexivity|].
  destruct e; simpl; now rewrite ?IH.
Qed.

Lemma world_eta (w : world) : w = mk_world (state_file w) (posts w) (log w).
Proof. destruct w; reflexivity. Qed.

(** The retry loop, by the answers the POSTs get: what it returns, how
    many POSTs it makes, and how long it sleeps in between. *)
Lemma backoff_loop_run (net : network) (title message : string) (max_retries : nat) :
  forall (len a : nat) (backoff : Z) (w : world),
    (a + len = max_retries)%nat ->
    let k := attempts_made (ntfy net) (posts w) len in
    exists evs : list event,
      backoff_loop net title message max_retries (seq a len) backoff w =
        (Returns (delivers (ntfy net) (posts w) len),
         mk_world (state_file w) (posts w + k) (log w ++ evs))
      ∧ post_events evs = map (fun q => Post title message (ntfy net q)) (seq (posts w) k)
      ∧ sleeps evs = delays backoff (k - 1)
      ∧ Forall notifier_event evs.
Proof.
  induction len as [|len IH]; intros a backoff w Ha; simpl.
  - exists []. rewrite Nat.add_0_r, app_nil_r, <- world_eta. repeat split. constructor.
  - rewrite bind_run, backoff_attempt_run.
    set (r := ntfy net (posts w)).
    destruct (rate_limited r) eqn:Hr.
    + rewrite (rate_limited_not_accepted _ Hr).
      destruct (Z.of_nat a <? Z.of_nat max_retries - 1) eqn:Hlast.
      * apply Z.ltb_lt in Hlast.
        edestruct (IH (S a) (Z.min (backoff * 2) max_backoff)
                     (mk_world (state_file w) (S (posts w))
                        (log w ++ [Post title message r; Printed (PRetrying backoff);
                                   Sleep backoff])))
          as (evs & Hrun & Hposts & Hsleeps & Hev); [lia|].
        cbn [state_file posts log] in Hrun, Hposts, Hsleeps.
        eexists (Post title message r :: Printed (PRetrying backoff) :: Sleep backoff :: evs).
        rewrite Hrun. split; [|split; [|split]].
        -- f_equal. f_equal; [lia|]. rewrite <- app_assoc. reflexivity.
        -- simpl. now rewrite Hposts.
        -- simpl. rewrite Hsleeps.
           pose proof (attempts_made_pos (ntfy net) (S (posts w)) len ltac:(lia)) as Hpos.
           destruct (attempts_made (ntfy net) (S (posts w)) len) as [|k']; [lia|].
           simpl. now rewrite Nat.sub_0_r.
        -- repeat constructor. exact Hev.
      * apply Z.ltb_ge in Hlast. assert (len = 0%nat) as -> by lia. simpl.
        eexists [Post title message r; Printed PMaxRetries].
        rewrite Nat.add_1_r. repeat split. repeat constructor.
    + destruct (accepted r) eqn:Hacc.
      * eexists [Post title message r; Printed (PNotificationSent title)].
        rewrite Nat.add_1_r. repeat split. repeat constructor.
      * eexists [Post title message r; Printed (PFailedToSend _)].
        rewrite Nat.add_1_r. repeat split. repeat constructor.
Qed.

Lemma send_with_backoff_run (net : network) (title message : string)
    (max_retries : nat) (w : world) :
  let k := attempts_made (ntfy net) (posts w) max_retries in
  exists evs : list event,
    send_notification_with_backoff net title message max_retries w =
      (Returns (delivers (ntfy net) (posts w) max_retries),
       mk_world (state_file w) (posts w + k) (log w ++ evs))
    ∧ post_events evs = map (fun q => Post title message (ntfy net q)) (seq (posts w) k)
    ∧ sleeps evs = delays 2 (k - 1)
    ∧ Forall notifier_event evs.
Proof. apply backoff_loop_run. reflexivity. Qed.

Lemma attempts_after_limits (replies : nat -> reply unit) :
  forall k p len : nat,
    (k < len)%nat ->
    (forall j, (j < k)%nat -> rate_limited (replies (p + j)%nat) = true) ->
    rate_limited (replies (p + k)%nat) = false ->
    attempts_made replies p len = S k
    ∧ delivers replies p len = accepted (replies (p + k)%nat).
Proof.
  induction k as [|k IH]; intros p len Hk Hlim Hlast.
  - destruct len; [lia|]. simpl. rewrite Nat.add_0_r in *. now rewrite Hlast.
  - destruct len; [lia|]. simpl.
    assert (H0 : rate_limited (replies p) = true).
    { rewrite <- (Nat.add_0_r p). apply Hlim. lia. }
    rewrite H0, <- Nat.add_succ_comm.
    destruct (IH (S p) len) as [-> ->]; [lia| | |easy].
    + intros j Hj. rewrite Nat.add_succ_comm. apply Hlim. lia.
    + now rewrite Nat.add_succ_comm.
Qed.

Lemma attempts_all_limited (replies : nat -> reply unit) :
  forall len p : nat,
    (forall j, (j < len)%nat -> rate_limited (replies (p + j)%nat) = true) ->
    attempts_made replies p len = len ∧ delivers replies p len = false.
Proof.
  induction len as [|len IH]; intros p Hlim; simpl; [easy|].
  assert (H0 : rate_limited (replies p) = true).
  { rewrite <- (Nat.add_0_r p). apply Hlim. lia. }
  rewrite H0.
  destruct (IH (S p)) as [-> ->]; [|easy].
  intros j Hj. rewrite Nat.add_succ_comm. apply Hlim. lia.
Qed.

Lemma backoff_delay_succ (k : nat) :
  backoff_delay (S k) = Z.min (backoff_delay k * 2) max_backoff.
Proof.
  unfold backoff_delay, max_backoff. rewrite Nat2Z.inj_succ, Z.pow_succ_r by lia.
  pose proof (Z.pow_pos_nonneg 2 (Z.of_nat k) ltac:(lia) ltac:(lia)). lia.
Qed.

Lemma delays_backoff_delay (k : nat) :
  forall i : nat, delays (backoff_delay i) k = map backoff_delay (seq i k).
Proof.
  induction k as [|k IH]; intros i; simpl; [reflexivity|].
  now rewrite <- backoff_delay_succ, IH.
Qed.

Lemma delivery_ends_intro (net : network) (title message : string) (w : world)
    (tries : nat) (evs : list event) :
  post_events evs = map (fun q => Post title message (ntfy net q)) (seq (posts w) tries) ->
  sleeps evs = delays 2 (tries - 1) ->
  delivery_ends net title message w
    (mk_world (state_file w) (posts w + tries) (log w ++ evs)) tries.
Proof.
  intros Hp Hs. unfold delivery_ends. cbn [state_file posts log].
  rewrite post_events_app, sleeps_app, Hp, Hs.
  change 2 with (backoff_delay 0). now rewrite delays_backoff_delay.
Qed.

(** C5. [send_notification_with_backoff] returns [True] at the first
    attempt that is taken, without a further POST; on an error other than
    HTTP 429 it returns [False] at once, without a retry; on HTTP 429 it
    sleeps and tries again, the waits being 2 seconds, then twice the one
    before, never above 64, for [max_retries] attempts at most (5 as the
    script calls it), and returns [False] when they are used up. *)
Theorem deliver_contract (net : network) (title message : string)
    (max_retries : nat) (w : world) :
  let p := posts w in
  let result := send_notification_with_backoff net title message max_retries w in
  (forall k : nat,
     (k < max_retries)%nat -> limited_for net p k ->
     accepted (ntfy net (p + k)%nat) = true ->
     result.1 = Returns true
     ∧ delivery_ends net title message w result.2 (S k))
  ∧ (forall k : nat,
       (k < max_retries)%nat -> limited_for net p k ->
       hard_failure (ntfy net (p + k)%nat) = true ->
       result.1 = Returns false
       ∧ delivery_ends net title message w result.2 (S k))
  ∧ (limited_for net p max_retries ->
     result.1 = Returns false
     ∧ delivery_ends net title message w result.2 max_retries)
  ∧ backoff_delay 0 = 2
  ∧ (forall k : nat, backoff_delay (S k) = Z.min (backoff_delay k * 2) 64)
  ∧ map backoff_delay (seq 0 8) = [2; 4; 8; 16; 32; 64; 64; 64]
  ∧ default_max_retries = 5%nat.
Proof.
  intros p result.
  destruct (send_with_backoff_run net title message max_retries w)
    as (evs & Hrun & Hposts & Hsleeps & _).
  fold result in Hrun. subst p.
  assert (Hnot : forall r, accepted r = true \/ hard_failure r = true ->
                           rate_limited r = false).
  { intros r [H|H].
    - destruct (rate_limited r) eqn:E; [|reflexivity].
      rewrite (rate_limited_not_accepted _ E) in H. discriminate.
    - unfold hard_failure in H. apply andb_prop in H as [_ H].
      now apply negb_true_iff in H. }
  split; [|split; [|split]].
  - intros k Hk Hlim Hacc.
    destruct (attempts_after_limits (ntfy net) k (posts w) max_retries Hk Hlim
                (Hnot _ (or_introl Hacc))) as [Hn Hd].
    rewrite Hn in Hposts, Hsleeps, Hrun. rewrite Hd, Hacc in Hrun.
    rewrite Hrun. split; [reflexivity|]. now apply delivery_ends_intro.
  - intros k Hk Hlim Hhard.
    destruct (attempts_after_limits (ntfy net) k (posts w) max_retries Hk Hlim
                (Hnot _ (or_intror Hhard))) as [Hn Hd].
    rewrite Hn in Hposts, Hsleeps, Hrun. rewrite Hd in Hrun.
    unfold hard_failure in Hhard. apply andb_prop in Hhard as [Hacc _].
    apply negb_true_iff in Hacc. rewrite Hacc in Hrun.
    rewrite Hrun. split; [reflexivity|]. now apply delivery_ends_intro.
  - intros Hlim.
    destruct (attempts_all_limited (ntfy net) max_retries (posts w) Hlim) as [Hn Hd].
    rewrite Hn in Hposts, Hsleeps, Hrun. rewrite Hd in Hrun.
    rewrite Hrun. split; [reflexivity|]. now apply delivery_ends_intro.
  - split; [reflexivity|]. split; [exact backoff_delay_succ|].
    split; reflexivity.
Qed.

Lemma deliver_contract_witness :
  let w := fresh_world None in
  let result := send_notification_with_backoff net_two_limits "title" "message" 5 w in
  (2 < 5)%nat
  ∧ limited_for net_two_limits 0 2
  ∧ accepted (ntfy net_two_limits 2) = true
  ∧ result.1 = Returns true
  ∧ delivery_ends net_two_limits "title" "message" w result.2 3.
Proof.
  intros w result.
  assert (H1 : (2 < 5)%nat) by lia.
  assert (H2 : limited_for net_two_limits (posts w) 2).
  { intros j Hj. destruct j as [|[|j]]; [reflexivity | reflexivity | lia]. }
  assert (H3 : accepted (ntfy net_two_limits (posts w + 2)) = true) by reflexivity.
  split; [exact H1|]. split; [exact H2|]. split; [exact H3|].
  exact (proj1 (deliver_contract net_two_limits "title" "message" 5 w) 2%nat H1 H2 H3).
Defined.

(** With the default of five attempts and a server that keeps answering
    429, the script sleeps 2, 4, 8 and 16 seconds and gives up. *)
Example five_rate_limits :
  let net := mk_network (Response 200 VNone) (Response 200 []) (fun _ => Response 429 tt) in
  let result := send_notification_with_backoff net "t" "m" default_max_retries
                  (fresh_world None) in
  result.1 = Returns false ∧ posts result.2 = 5%nat ∧ sleeps (log result.2) = [2; 4; 8; 16].
Proof. vm_compute. repeat split. Qed.

End NotifierSpec.

(* ===================================================================== *)
(** ** The run controller                                                 *)
(* ===================================================================== *)

Module RunSpec.
Import Monitor FormatterSpec NotifierSpec.

Lemma format_call_body (c : dict) : format_call c = Returns (call_body c).
Proof.
  unfold call_body. destruct (format_call_returns c) as [m ->]. reflexivity.
Qed.

(** The notification loop, by the answers the POSTs get. *)
Lemma notify_loop_run (net : network) (n : nat) :
  forall (pending : list dict) (i : nat) (sent : list value) (w : world),
  exists (evs : list event) (p' : nat),
    notify_loop net n i pending sent w =
      (Returns (sent ++ delivered_ids (ntfy net) (posts w) pending),
       mk_world (state_file w) p' (log w ++ evs))
    ∧ post_events evs = loop_posts (ntfy net) (posts w) pending
    ∧ Forall notifier_event evs.
Proof.
  induction pending as [|c rest IH]; intros i sent w.
  - exists [], (posts w). simpl. rewrite !app_nil_r, <- world_eta.
    repeat split. constructor.
  - cbn [notify_loop delivered_ids loop_posts].
    rewrite bind_run. unfold lift. rewrite format_call_body, bind_run.
    destruct (send_with_backoff_run net (call_title c) (call_body c)
                default_max_retries w) as (evs & -> & Hposts & _ & Hev).
    set (k := attempts_made (ntfy net) (posts w) default_max_retries) in *.
    destruct (delivers (ntfy net) (posts w) default_max_retries).
    + set (pause := if Z.of_nat i <? Z.of_nat n - 1 then [Sleep 1] else []).
      set (sent' := if truthy (call_id c) then sent ++ [call_id c] else sent).
      destruct (IH (S i) sent'
                  (mk_world (state_file w) (posts w + k) (log w ++ evs ++ pause)))
        as (evs' & p' & Hrun & Hposts' & Hev').
      cbn [state_file posts log] in Hrun, Hposts'.
      exists (evs ++ pause ++ evs'), p'. split; [|split].
      * rewrite bind_run.
        replace ((if Z.of_nat i <? Z.of_nat n - 1 then sleep 1 else mret ())
                   (mk_world (state_file w) (posts w + k) (log w ++ evs)))
          with (Returns (), mk_world (state_file w) (posts w + k) (log w ++ evs ++ pause)).
        2:{ subst pause. destruct (Z.of_nat i <? Z.of_nat n - 1);
              cbv [sleep emit mret M_ret]; world_simpl; rewrite ?app_nil_r; reflexivity. }
        fold sent'. rewrite Hrun. f_equal.
        -- f_equal. subst sent'. destruct (truthy (call_id c)); simpl;
             rewrite <- ?app_assoc; reflexivity.
        -- f_equal. rewrite <- !app_assoc. reflexivity.
      * rewrite !post_events_app, Hposts, Hposts'.
        subst pause. destruct (Z.of_nat i <? Z.of_nat n - 1); reflexivity.
      * apply Forall_app; split; [exact Hev|].
        apply Forall_app; split; [|exact Hev'].
        subst pause. destruct (Z.of_nat i <? Z.of_nat n - 1); repeat constructor.
    + exists (evs ++ [Printed (PStopped (i + 1) n)]), (posts w + k)%nat.
      split; [|split].
      * cbv [mbind M_bind print emit mret M_ret]. world_simpl.
        rewrite !app_nil_r. reflexivity.
      * rewrite post_events_app, Hposts, !app_nil_r. reflexivity.
      * apply Forall_app; split; [exact Hev|]. repeat constructor.
Qed.

Lemma load_state_run (w : world) :
  exists st : state,
    load_state w = (Returns st, w)
    ∧ list_to_set (seen_ids st) = seen_set (state_file w)
    ∧ rows_updated_at st = token (state_file w).
Proof.
  unfold load_state. destruct (state_file w) as [st|]; eexists; repeat split.
Qed.

Lemma get_rows_updated_at_run (net : network) (w : world) :
  get_rows_updated_at net w = (http_result (metadata net), add_events w [GetMetadata]).
Proof.
  unfold get_rows_updated_at. rewrite bind_run. cbv [emit].
  now rewrite raise_for_status_run.
Qed.

Lemma fetch_recent_calls_run (net : network) (limit : Z) (w : world) :
  fetch_recent_calls net limit w = (http_result (dataset net), add_events w [GetCalls limit]).
Proof.
  unfold fetch_recent_calls. rewrite bind_run. cbv [emit].
  now rewrite raise_for_status_run.
Qed.

(** The metadata query fails: nothing else happens. *)
Lemma check_metadata_fails (net : network) (w : world) (e : exn) :
  http_result (metadata net) = Raises e ->
  check_and_notify net w = (Raises e, add_events w [GetMetadata]).
Proof.
  intros Hm. unfold check_and_notify.
  destruct (load_state_run w) as (st & Hl & _ & _).
  rewrite bind_run, Hl, bind_run, get_rows_updated_at_run, Hm. reflexivity.
Qed.

(** The short-circuit. *)
Lemma check_short_circuit (net : network) (w : world) (tok : value) :
  http_result (metadata net) = Returns tok ->
  tok = token (state_file w) -> seen_set (state_file w) ≠ ∅ ->
  check_and_notify net w = (Returns tt, add_events w [GetMetadata; Printed PNoUpdate]).
Proof.
  intros Hm Htok Hseen. unfold check_and_notify.
  destruct (load_state_run w) as (st & Hl & Hs & Ht).
  rewrite bind_run, Hl, bind_run, get_rows_updated_at_run, Hm, Hs, Ht.
  rewrite !bool_decide_eq_true_2 by assumption. cbn [andb].
  cbv [print emit add_events]. world_simpl. reflexivity.
Qed.

(** The record fetch fails. *)
Lemma check_fetch_fails (net : network) (w : world) (tok : value) (e : exn) :
  http_result (metadata net) = Returns tok ->
  ¬ (tok = token (state_file w) ∧ seen_set (state_file w) ≠ ∅) ->
  http_result (dataset net) = Raises e ->
  check_and_notify net w =
    (Raises e, add_events w [GetMetadata; Printed PUpdateDetected; GetCalls default_limit]).
Proof.
  intros Hm Hcond Hd. unfold check_and_notify.
  destruct (load_state_run w) as (st & Hl & Hs & Ht).
  rewrite bind_run, Hl, bind_run, get_rows_updated_at_run, Hm, Hs, Ht.
  destruct (bool_decide _ && bool_decide _) eqn:E.
  { apply andb_prop in E as [E1%bool_decide_eq_true E2%bool_decide_eq_true]. tauto. }
  rewrite bind_run. cbv [print emit add_events]. world_simpl.
  rewrite bind_run, fetch_recent_calls_run, Hd. cbv [add_events]. world_simpl.
  reflexivity.
Qed.

(** The first run: the state written holds no identifier. *)
Lemma check_bootstrap (net : network) (w : world) (tok : value) (calls : list dict) :
  http_result (metadata net) = Returns tok ->
  seen_set (state_file w) = ∅ ->
  http_result (dataset net) = Returns calls ->
  check_and_notify net w =
    (Returns tt,
     mk_world (Some (mk_state [] tok)) (posts w)
       (log w ++ [GetMetadata; Printed PUpdateDetected; GetCalls default_limit;
                  Printed (PFirstRun (size (list_to_set (call_id <$> calls) : gset value)));
                  WriteState (mk_state [] tok)])).
Proof.
  intros Hm Hseen Hd. unfold check_and_notify.
  destruct (load_state_run w) as (st & Hl & Hs & Ht).
  rewrite bind_run, Hl, bind_run, get_rows_updated_at_run, Hm, Hs, Ht, Hseen.
  rewrite (bool_decide_eq_false_2 (∅ ≠ ∅)) by (intros H; now apply H).
  rewrite andb_false_r, bind_run. cbv [print emit add_events]. world_simpl.
  rewrite bind_run, fetch_recent_calls_run, Hd. cbv [add_events]. world_simpl.
  destruct (decide (∅ =@{gset value} ∅)) as [_|Hne]; [|now exfalso].
  destruct (decide (∅ ≠@{gset value} ∅)) as [Hne|_]; [now exfalso|].
  rewrite elements_empty.
  cbv [mbind M_bind mret M_ret save_state print emit]. world_simpl. reflexivity.
Qed.

(** A later run with a change: the new calls go through the notification
    loop and the state written is the old seen-set plus what the loop
    collected. *)
Lemma check_notify (net : network) (w : world) (tok : value) (calls : list dict) :
  http_result (metadata net) = Returns tok ->
  seen_set (state_file w) ≠ ∅ ->
  tok ≠ token (state_file w) ->
  http_result (dataset net) = Returns calls ->
  let seen := seen_set (state_file w) in
  let new := new_calls seen calls in
  let st' := mk_state (elements seen ++ delivered_ids (ntfy net) (posts w) new) tok in
  exists (evs : list event) (p' : nat),
    check_and_notify net w =
      (Returns tt,
       mk_world (Some st') p'
         (log w ++ [GetMetadata; Printed PUpdateDetected; GetCalls default_limit]
                ++ evs ++ [WriteState st']))
    ∧ post_events evs = loop_posts (ntfy net) (posts w) new
    ∧ Forall notifier_event evs.
Proof.
  intros Hm Hseen Htok Hd seen new st'. unfold check_and_notify.
  destruct (load_state_run w) as (st & Hl & Hs & Ht).
  rewrite bind_run, Hl, bind_run, get_rows_updated_at_run, Hm, Hs, Ht.
  rewrite (bool_decide_eq_false_2 (tok = _)) by assumption.
  cbn [andb]. rewrite bind_run. cbv [print emit add_events]. world_simpl.
  rewrite bind_run, fetch_recent_calls_run, Hd. cbv [add_events]. world_simpl.
  rewrite (decide_False (P := seen_set (state_file w) = ∅)) by assumption.
  fold seen. rewrite bind_run. cbv [mret M_ret].
  replace (filter (fun c => call_id c ∉ seen) calls) with new
    by (subst new; unfold new_calls; now rewrite decide_False).
  rewrite bind_run.
  destruct new as [|c rest] eqn:Hnew.
  - rewrite (decide_True (P := seen ≠ ∅)) by assumption.
    exists [Printed PNoNewCalls], (posts w).
    cbv [mbind M_bind mret M_ret save_state print emit]. world_simpl.
    subst st'. simpl. repeat split. repeat constructor.
  - rewrite bind_run. cbv [print emit]. world_simpl.
    match goal with
    | |- context [notify_loop net ?n 0 (c :: rest) [] ?w1] =>
        destruct (notify_loop_run net n (c :: rest) 0 [] w1)
          as (evs & p' & Hrun & Hposts & Hev)
    end.
    rewrite Hrun. cbn [state_file posts log] in *.
    exists (Printed (PFound (length (c :: rest))) :: evs), p'.
    cbv [save_state]. world_simpl. subst st'. simpl app.
    split; [reflexivity|]. split; [exact Hposts|].
    constructor; [exact I | exact Hev].
Qed.

Lemma main_run (net : network) (w : world) :
  main net w =
  match check_and_notify net (add_events w [Printed PBanner]) with
  | (Returns _, w') => (0, add_events w' [Printed PRunComplete])
  | (Raises e, w') => (1, add_events w' [Printed (PError e)])
  end.
Proof.
  unfold main. rewrite bind_run. cbv [print emit add_events]. world_simpl.
  destruct (check_and_notify net _) as [[[]|e] w']; reflexivity.
Qed.

Lemma http_result_raises {A : Type} (r : reply A) (e : exn) :
  http_result r = Raises e <->
  (r = NoResponse ∧ e = ConnectionError)
  ∨ (exists status body, r = Response status body ∧ 400 <= status < 600
                         ∧ e = HTTPError status).
Proof.
  unfold http_result, is_error_status. split.
  - destruct r as [status body|]; [|intros [= <-]; now left].
    destruct (_ && _) eqn:E; [|discriminate].
    intros [= <-]. right. exists status, body.
    apply andb_prop in E as [E1%Z.leb_le E2%Z.ltb_lt]. repeat split; lia.
  - intros [[-> ->]|(status & body & -> & Hs & ->)]; [reflexivity|].
    destruct (_ && _) eqn:E; [reflexivity|].
    apply andb_false_iff in E as [E%Z.leb_gt|E%Z.ltb_ge]; lia.
Qed.

(** C8. When the metadata query or the record fetch fails, the exception
    leaves [check_and_notify]: no request follows, the state file is not
    written and stays as it was, and the process prints the error and exits
    with code 1.  A run in which neither fails exits with code 0. *)
Theorem upstream_failure_aborts (net : network) (file : option state) :
  (forall e : exn,
     http_result (metadata net) = Raises e ->
     run net file = (1, mk_world file 0 [Printed PBanner; GetMetadata; Printed (PError e)]))
  ∧ (forall (tok : value) (e : exn),
       http_result (metadata net) = Returns tok ->
       ¬ (tok = token file ∧ seen_set file ≠ ∅) ->
       http_result (dataset net) = Raises e ->
       run net file =
         (1, mk_world file 0 [Printed PBanner; GetMetadata; Printed PUpdateDetected;
                              GetCalls default_limit; Printed (PError e)]))
  ∧ (forall tok : value,
       http_result (metadata net) = Returns tok ->
       (tok = token file ∧ seen_set file ≠ ∅)
       ∨ (exists calls, http_result (dataset net) = Returns calls) ->
       (run net file).1 = 0
       ∧ last (log (run net file).2) = Some (Printed PRunComplete))
  ∧ (forall (A : Type) (r : reply A) (e : exn),
       http_result r = Raises e <->
       (r = NoResponse ∧ e = ConnectionError)
       ∨ (exists status body, r = Response status body ∧ 400 <= status < 600
                              ∧ e = HTTPError status)).
Proof.
  split; [|split; [|split]].
  - intros e Hm. unfold run. rewrite main_run.
    rewrite (check_metadata_fails _ _ _ Hm). reflexivity.
  - intros tok e Hm Hcond Hd. unfold run. rewrite main_run.
    rewrite (check_fetch_fails net (add_events (mk_world file 0 []) [Printed PBanner])
               tok e Hm Hcond Hd).
    reflexivity.
  - intros tok Hm Hok. unfold run. rewrite main_run.
    set (w0 := add_events (mk_world file 0 []) [Printed PBanner]).
    destruct (decide (tok = token file ∧ seen_set file ≠ ∅)) as [[Ht Hs]|Hcond].
    { rewrite (check_short_circuit net w0 tok Hm Ht Hs). split; reflexivity. }
    destruct Hok as [Hok|[calls Hd]]; [tauto|].
    destruct (decide (seen_set file = ∅)) as [Hs|Hs].
    { rewrite (check_bootstrap net w0 tok calls Hm Hs Hd). split; reflexivity. }
    assert (Ht : tok ≠ token file) by tauto.
    destruct (check_notify net w0 tok calls Hm Hs Ht Hd) as (evs & p' & -> & _).
    split; [reflexivity|]. cbv [add_events]. world_simpl.
    match goal with
    | |- last (?l ++ ?a :: ?b :: ?c :: ?evs ++ [?x; ?y]) = _ =>
        replace (l ++ a :: b :: c :: evs ++ [x; y])
          with ((l ++ a :: b :: c :: evs ++ [x]) ++ [y])
          by (rewrite <- app_assoc; simpl; rewrite <- app_assoc; reflexivity)
    end.
    apply last_snoc.
  - intros A r e. apply http_result_raises.
Qed.

Lemma upstream_failure_aborts_witness :
  http_result (metadata net_metadata_down) = Raises (HTTPError 503)
  ∧ run net_metadata_down state_A =
      (1, mk_world state_A 0 [Printed PBanner; GetMetadata; Printed (PError (HTTPError 503))]).
Proof.
  assert (H : http_result (metadata net_metadata_down) = Raises (HTTPError 503))
    by reflexivity.
  split; [exact H|].
  exact (proj1 (upstream_failure_aborts net_metadata_down state_A) (HTTPError 503) H).
Defined.

(** A run that exits with code 0 saw a token, and leaves either an empty
    seen-set or that token in the state file. *)
Lemma completed_run_token (net : network) (file : option state) :
  (run net file).1 = 0 ->
  exists tok : value,
    http_result (metadata net) = Returns tok
    ∧ (seen_set (state_file (run net file).2) ≠ ∅ ->
       token (state_file (run net file).2) = tok).
Proof.
  unfold run. rewrite main_run.
  set (w0 := add_events (mk_world file 0 []) [Printed PBanner]).
  destruct (http_result (metadata net)) as [tok|e] eqn:Hm.
  2:{ rewrite (check_metadata_fails net w0 e Hm). discriminate. }
  intros Hexit. exists tok. split; [reflexivity|].
  destruct (decide (tok = token file ∧ seen_set file ≠ ∅)) as [[Ht Hs]|Hcond].
  { rewrite (check_short_circuit net w0 tok Hm Ht Hs). intros _. now symmetry. }
  destruct (http_result (dataset net)) as [calls|e] eqn:Hd.
  2:{ rewrite (check_fetch_fails net w0 tok e Hm Hcond Hd) in Hexit. discriminate. }
  destruct (decide (seen_set file = ∅)) as [Hs|Hs].
  { rewrite (check_bootstrap net w0 tok calls Hm Hs Hd). simpl. intros H. now exfalso. }
  assert (Ht : tok ≠ token file) by tauto.
  destruct (check_notify net w0 tok calls Hm Hs Ht Hd) as (evs & p' & -> & _).
  reflexivity.
Qed.

(** C3. When the token of the dataset is the one in the state file and the
    seen-set is not empty, the run ends after the metadata query: it fetches
    no records, sends nothing and leaves the state file as it is.  Hence the
    run that follows a completed run, with the token unchanged and a seen-set
    that is not empty, fetches nothing and sends nothing. *)
Theorem no_change_skips (net : network) (file : option state) :
  (forall tok : value,
     http_result (metadata net) = Returns tok ->
     tok = token file -> seen_set file ≠ ∅ ->
     run net file = (0, mk_world file 0 skipped_log))
  ∧ (forall net' : network,
       let file' := state_file (run net file).2 in
       (run net file).1 = 0 ->
       seen_set file' ≠ ∅ ->
       http_result (metadata net') = http_result (metadata net) ->
       run net' file' = (0, mk_world file' 0 skipped_log))
  ∧ existsb is_fetch skipped_log = false
  ∧ existsb is_post skipped_log = false
  ∧ existsb is_write skipped_log = false.
Proof.
  assert (Hskip : forall net0 file0 tok,
            http_result (metadata net0) = Returns tok ->
            tok = token file0 -> seen_set file0 ≠ ∅ ->
            run net0 file0 = (0, mk_world file0 0 skipped_log)).
  { intros net0 file0 tok Hm Ht Hs. unfold run. rewrite main_run.
    rewrite (check_short_circuit net0
               (add_events (mk_world file0 0 []) [Printed PBanner]) tok Hm Ht Hs).
    reflexivity. }
  split; [apply Hskip|]. split; [|repeat split].
  intros net' file' Hexit Hseen Hsame.
  destruct (completed_run_token net file Hexit) as (tok & Hm & Htok).
  apply (Hskip net' file' tok).
  - now rewrite Hsame.
  - symmetry. now apply Htok.
  - exact Hseen.
Qed.

Lemma no_change_skips_witness :
  http_result (metadata net_unchanged) = Returns (VStr "t1")
  ∧ VStr "t1" = token state_A
  ∧ seen_set state_A ≠ ∅
  ∧ run net_unchanged state_A = (0, mk_world state_A 0 skipped_log).
Proof.
  assert (Hm : http_result (metadata net_unchanged) = Returns (VStr "t1")) by reflexivity.
  assert (Ht : VStr "t1" = token state_A) by reflexivity.
  assert (Hs : seen_set state_A ≠ ∅) by by_decide.
  split; [exact Hm|]. split; [exact Ht|]. split; [exact Hs|].
  exact (proj1 (no_change_skips net_unchanged state_A) (VStr "t1") Hm Ht Hs).
Defined.

Lemma delivers_accepted (replies : nat -> reply unit) :
  forall len p : nat,
    delivers replies p len = true ->
    exists q : nat,
      In q (seq p (attempts_made replies p len)) ∧ accepted (replies q) = true.
Proof.
  induction len as [|len IH]; intros p; simpl; [discriminate|].
  destruct (rate_limited (replies p)).
  - intros H. destruct (IH _ H) as (q & Hq & Hacc).
    exists q. split; [right; exact Hq | exact Hacc].
  - intros H. exists p. split; [left; reflexivity | exact H].
Qed.

(** Every identifier the loop collects is a truthy identifier of a pending
    call for which a POST was taken. *)
Lemma delivered_ids_sound (replies : nat -> reply unit) :
  forall (pending : list dict) (p : nat) (id : value),
    In id (delivered_ids replies p pending) ->
    truthy id = true
    ∧ exists (c : dict) (r : reply unit),
        In c pending ∧ call_id c = id
        ∧ In (Post (call_title c) (call_body c) r) (loop_posts replies p pending)
        ∧ accepted r = true.
Proof.
  induction pending as [|c rest IH]; intros p id;
    cbn [delivered_ids loop_posts]; [intros []|].
  destruct (delivers replies p default_max_retries) eqn:Hd; [|intros []].
  intros Hin. apply in_app_or in Hin as [Hin|Hin].
  - destruct (truthy (call_id c)) eqn:Ht; [|destruct Hin].
    destruct Hin as [<-|[]]. split; [exact Ht|].
    destruct (delivers_accepted _ _ _ Hd) as (q & Hq & Hacc).
    exists c, (replies q). repeat split; [now left| |exact Hacc].
    apply in_or_app. left.
    apply (in_map (fun q => Post (call_title c) (call_body c) (replies q))), Hq.
  - destruct (IH _ _ Hin) as (Ht & c' & r & Hc' & Hid & Hpost & Hacc).
    split; [exact Ht|]. exists c', r. repeat split; [now right|exact Hid| |exact Hacc].
    apply in_or_app. now right.
Qed.

Lemma post_events_In (e : event) (evs : list event) :
  In e (post_events evs) -> In e evs.
Proof.
  induction evs as [|e' evs IH]; simpl; [tauto|].
  destruct (is_post e'); simpl; tauto.
Qed.

Lemma new_calls_In (seen : gset value) (calls : list dict) (c : dict) :
  In c (new_calls seen calls) <-> seen ≠ ∅ ∧ (call_id c ∉ seen) ∧ In c calls.
Proof.
  unfold new_calls. destruct (decide (seen = ∅)) as [->|Hne].
  - simpl. split; [tauto|]. intros [H _]. now apply H.
  - rewrite <- !list_elem_of_In. split.
    + intros H%list_elem_of_filter. tauto.
    + intros (_ & H1 & H2). apply list_elem_of_filter. tauto.
Qed.

(** A run that reaches the notification loop. *)
Lemma run_notify (net : network) (file : option state) (tok : value) (calls : list dict) :
  http_result (metadata net) = Returns tok ->
  http_result (dataset net) = Returns calls ->
  seen_set file ≠ ∅ ->
  tok ≠ token file ->
  let r := run net file in
  let new := new_calls (seen_set file) calls in
  r.1 = 0
  ∧ state_file r.2 =
      Some (mk_state (elements (seen_set file) ++ delivered_ids (ntfy net) 0 new) tok)
  ∧ post_events (log r.2) = loop_posts (ntfy net) 0 new.
Proof.
  intros Hm Hd Hs Ht r new. subst r. unfold run. rewrite main_run.
  set (w0 := add_events (mk_world file 0 []) [Printed PBanner]).
  destruct (check_notify net w0 tok calls Hm Hs Ht Hd) as (evs & p' & -> & Hposts & _).
  repeat split.
  cbv [add_events]. world_simpl. rewrite !post_events_app. simpl.
  rewrite post_events_app. simpl. rewrite app_nil_r. exact Hposts.
Qed.

(** The three ways a run can go: it leaves the state file alone and sends
    nothing (an upstream failure or the short-circuit); it is a first run;
    or it goes through the notification loop. *)
Lemma run_cases (net : network) (file : option state) :
  let r := run net file in
  (state_file r.2 = file ∧ post_events (log r.2) = [])
  ∨ (exists (tok : value) (calls : list dict),
       http_result (metadata net) = Returns tok
       ∧ http_result (dataset net) = Returns calls
       ∧ seen_set file = ∅
       ∧ r.1 = 0
       ∧ state_file r.2 = Some (mk_state [] tok)
       ∧ post_events (log r.2) = [])
  ∨ (exists (tok : value) (calls : list dict),
       let new := new_calls (seen_set file) calls in
       http_result (metadata net) = Returns tok
       ∧ http_result (dataset net) = Returns calls
       ∧ seen_set file ≠ ∅
       ∧ tok ≠ token file
       ∧ r.1 = 0
       ∧ state_file r.2 =
           Some (mk_state (elements (seen_set file) ++ delivered_ids (ntfy net) 0 new) tok)
       ∧ post_events (log r.2) = loop_posts (ntfy net) 0 new).
Proof.
  intros r. subst r. unfold run. rewrite main_run.
  set (w0 := add_events (mk_world file 0 []) [Printed PBanner]).
  destruct (http_result (metadata net)) as [tok|e] eqn:Hm.
  2:{ rewrite (check_metadata_fails net w0 e Hm). left. split; reflexivity. }
  destruct (decide (tok = token file ∧ seen_set file ≠ ∅)) as [[Ht Hs]|Hcond].
  { rewrite (check_short_circuit net w0 tok Hm Ht Hs). left. split; reflexivity. }
  destruct (http_result (dataset net)) as [calls|e] eqn:Hd.
  2:{ rewrite (check_fetch_fails net w0 tok e Hm Hcond Hd). left. split; reflexivity. }
  destruct (decide (seen_set file = ∅)) as [Hs|Hs].
  { rewrite (check_bootstrap net w0 tok calls Hm Hs Hd).
    right; left. exists tok, calls. repeat split. exact Hs. }
  assert (Ht : tok ≠ token file) by tauto.
  right; right. exists tok, calls.
  destruct (run_notify net file tok calls Hm Hd Hs Ht) as (H0 & Hst & Hposts).
  unfold run in H0, Hst, Hposts. rewrite main_run in H0, Hst, Hposts.
  repeat split; assumption.
Qed.

Lemma delivered_in_log (evs : list event) (c : dict) (r : reply unit) :
  In (Post (call_title c) (call_body c) r) (post_events evs) ->
  accepted r = true -> delivered evs c.
Proof. intros Hin Hacc. exists r. split; [now apply post_events_In | exact Hacc]. Qed.

(** C9. After every run the seen-set in the state file contains the
    seen-set before the run, and each identifier it has gained is the
    identifier of a fetched call for which the push service took a
    notification in that run. *)
Theorem seen_set_grows (net : network) (file : option state) :
  let r := run net file in
  seen_set file ⊆ seen_set (state_file r.2)
  ∧ (forall id : value,
       id ∈ seen_set (state_file r.2) -> id ∉ seen_set file ->
       exists (calls : list dict) (c : dict),
         http_result (dataset net) = Returns calls
         ∧ In c calls ∧ call_id c = id ∧ delivered (log r.2) c).
Proof.
  intros r.
  destruct (run_cases net file)
    as [[Hst _] | [(tok & calls & _ & _ & Hs & _ & Hst & _)
                  | (tok & calls & Hm & Hd & Hs & Ht & _ & Hst & Hposts)]];
    fold r in Hst; rewrite Hst.
  - split; [reflexivity | tauto].
  - rewrite Hs. simpl. split; [reflexivity | intros id Hin; set_solver].
  - fold r in Hposts. simpl seen_set.
    rewrite list_to_set_app_L, list_to_set_elements_L.
    split; [set_solver|].
    intros id Hin Hnew.
    apply elem_of_union in Hin as [Hin|Hin]; [tauto|].
    apply elem_of_list_to_set, list_elem_of_In in Hin.
    apply delivered_ids_sound in Hin as (_ & c & rp & Hc & Hid & Hpost & Hacc).
    apply new_calls_In in Hc as (_ & _ & Hc).
    exists calls, c. repeat split; [exact Hd|exact Hc|exact Hid|].
    rewrite <- Hposts in Hpost. exact (delivered_in_log _ _ _ Hpost Hacc).
Qed.

Lemma seen_set_grows_witness :
  let r := run net_one_new state_A in
  (VStr "B" ∈ seen_set (state_file r.2))
  ∧ (VStr "B" ∉ seen_set state_A)
  ∧ exists (calls : list dict) (c : dict),
      http_result (dataset net_one_new) = Returns calls
      ∧ In c calls ∧ call_id c = VStr "B" ∧ delivered (log r.2) c.
Proof.
  intros r.
  assert (H1 : VStr "B" ∈ seen_set (state_file r.2)) by by_decide.
  assert (H2 : VStr "B" ∉ seen_set state_A) by by_decide.
  split; [exact H1|]. split; [exact H2|].
  exact (proj2 (seen_set_grows net_one_new state_A) (VStr "B") H1 H2).
Defined.

Lemma accepted_not_limited (r : reply unit) : accepted r = true -> rate_limited r = false.
Proof.
  intros H. destruct (rate_limited r) eqn:E; [|reflexivity].
  rewrite (rate_limited_not_accepted _ E) in H. discriminate.
Qed.

Lemma accepted_delivers (replies : nat -> reply unit) (p : nat) :
  accepted (replies p) = true ->
  delivers replies p default_max_retries = true
  ∧ attempts_made replies p default_max_retries = 1%nat.
Proof.
  intros H. cbn [default_max_retries delivers attempts_made].
  now rewrite (accepted_not_limited _ H), H.
Qed.

Lemma fails_permanently_delivers (net : network) (p : nat) :
  fails_permanently net p ->
  delivers (ntfy net) p default_max_retries = false
  ∧ (1 <= attempts_made (ntfy net) p default_max_retries <= 5)%nat.
Proof.
  intros [(k & Hk & Hlim & Hhard)|Hlim].
  - unfold hard_failure in Hhard.
    apply andb_prop in Hhard as [Hacc%negb_true_iff Hrl%negb_true_iff].
    destruct (attempts_after_limits (ntfy net) k p default_max_retries Hk Hlim Hrl)
      as [-> ->].
    split; [exact Hacc|]. unfold default_max_retries in Hk. lia.
  - destruct (attempts_all_limited (ntfy net) default_max_retries p Hlim) as [-> ->].
    split; [reflexivity|]. unfold default_max_retries. lia.
Qed.




(** A run adds no null or empty identifier to the seen-set. *)
Lemma all_identified_run (net : network) (file : option state) :
  all_identified file -> all_identified (state_file (run net file).2).
Proof.
  intros Hinv.
  destruct (run_cases net file)
    as [[Hst _] | [(tok & calls & _ & _ & _ & _ & Hst & _)
                  | (tok & calls & _ & _ & _ & _ & _ & Hst & _)]];
    rewrite Hst.
  - exact Hinv.
  - intros id Hin. simpl in Hin. now apply not_elem_of_empty in Hin.
  - intros id Hin. simpl seen_set in Hin.
    rewrite list_to_set_app_L, list_to_set_elements_L in Hin.
    apply elem_of_union in Hin as [Hin|Hin]; [now apply Hinv|].
    apply elem_of_list_to_set, list_elem_of_In in Hin.
    now apply delivered_ids_sound in Hin.
Qed.




(** Every first run, whatever is fetched: nothing is sent, and the state
    written holds the token and an empty list of identifiers, so the run
    after it is a first run again. *)
Lemma first_run_records_nothing (net : network) (file : option state) (tok : value)
    (calls : list dict) :
  http_result (metadata net) = Returns tok ->
  http_result (dataset net) = Returns calls ->
  seen_set file = ∅ ->
  run net file =
    (0, mk_world (Some (mk_state [] tok)) 0
          [Printed PBanner; GetMetadata; Printed PUpdateDetected; GetCalls default_limit;
           Printed (PFirstRun (size (list_to_set (call_id <$> calls) : gset value)));
           WriteState (mk_state [] tok); Printed PRunComplete]).
Proof.
  intros Hm Hd Hs. unfold run. rewrite main_run.
  rewrite (check_bootstrap net (add_events (mk_world file 0 []) [Printed PBanner])
             tok calls Hm Hs Hd).
  reflexivity.
Qed.

(** C1, on the code.  In the first run of [net_first_run] the records [A]
    and [B] are fetched and nothing is sent, but the state written holds no
    identifier: the seen-set after the run is empty, not the set of the
    fetched identifiers. *)
Theorem bootstrap_records_nothing :
  let r := run net_first_run None in
  let fetched : gset value := list_to_set (call_id <$> [call_with_id "A"; call_with_id "B"]) in
  http_result (dataset net_first_run) = Returns [call_with_id "A"; call_with_id "B"]
  ∧ r.1 = 0
  ∧ post_events (log r.2) = []
  ∧ In (Printed (PFirstRun 2)) (log r.2)
  ∧ state_file r.2 = Some (mk_state [] (VStr "t1"))
  ∧ seen_set (state_file r.2) = ∅
  ∧ fetched = {[VStr "A"; VStr "B"]}
  ∧ seen_set (state_file r.2) ≠ fetched.
Proof.
  intros r fetched.
  assert (Hr : r = (0, mk_world (Some (mk_state [] (VStr "t1"))) 0
                         [Printed PBanner; GetMetadata; Printed PUpdateDetected;
                          GetCalls default_limit; Printed (PFirstRun 2);
                          WriteState (mk_state [] (VStr "t1")); Printed PRunComplete]))
    by (vm_compute; reflexivity).
  rewrite Hr. cbn [fst snd state_file log seen_set seen_ids].
  split; [reflexivity|]. split; [reflexivity|]. split; [reflexivity|].
  split; [simpl; tauto|]. split; [reflexivity|]. split; [reflexivity|].
  split; by_decide.
Qed.

(** C2, on the code.  The run of [net_partial] delivers [B] and fails on
    [C], leaves [C] out of the seen-set and writes the token [t2].  The next
    run finds the token unchanged and stops at the short-circuit: it fetches
    nothing and makes no POST, so the delivery for [C] is not attempted
    again, although [C] would be a new call. *)
Theorem undelivered_not_retried_when_unchanged :
  let r1 := run net_partial state_A in
  let r2 := run net_recovered (state_file r1.2) in
  state_file r1.2 = Some (mk_state [VStr "A"; VStr "B"] (VStr "t2"))
  ∧ In (Printed (PStopped 2 2)) (log r1.2)
  ∧ (VStr "C" ∉ seen_set (state_file r1.2))
  ∧ In (call_with_id "C")
       (new_calls (seen_set (state_file r1.2))
          [call_with_id "B"; call_with_id "C"; call_with_id "A"])
  ∧ r2 = (0, mk_world (state_file r1.2) 0 skipped_log)
  ∧ post_events (log r2.2) = []
  ∧ existsb is_fetch (log r2.2) = false.
Proof.
  intros r1 r2.
  assert (H1 : r1 = (0, mk_world (Some (mk_state [VStr "A"; VStr "B"] (VStr "t2"))) 2
      [Printed PBanner; GetMetadata; Printed PUpdateDetected; GetCalls default_limit;
       Printed (PFound 2);
       Post (call_title (call_with_id "B")) (call_body (call_with_id "B")) (Response 200 tt);
       Printed (PNotificationSent (call_title (call_with_id "B"))); Sleep 1;
       Post (call_title (call_with_id "C")) (call_body (call_with_id "C")) (Response 500 tt);
       Printed (PFailedToSend (HTTPError 500)); Printed (PStopped 2 2);
       WriteState (mk_state [VStr "A"; VStr "B"] (VStr "t2")); Printed PRunComplete]))
    by (vm_compute; reflexivity).
  assert (H2 : r2 = (0, mk_world (state_file r1.2) 0 skipped_log)).
  { subst r2. rewrite H1. vm_compute. reflexivity. }
  rewrite H2. rewrite H1. cbn [fst snd state_file log].
  split; [reflexivity|]. split; [simpl; tauto|].
  split; [by_decide|].
  split.
  { apply new_calls_In. split; [by_decide|]. split; [by_decide|]. simpl; tauto. }
  split; [reflexivity|]. split; reflexivity.
Qed.

(** Once the token has changed again, [C] is a new call and is notified. *)
Example undelivered_retried_after_change :
  let r1 := run net_partial state_A in
  let r3 := run net_changed_again (state_file r1.2) in
  post_events (log r3.2) =
    [Post (call_title (call_with_id "C")) (call_body (call_with_id "C")) (Response 200 tt)]
  ∧ (VStr "C" ∈ seen_set (state_file r3.2)).
Proof.
  intros r1 r3. split; [vm_compute; reflexivity | by_decide].
Qed.

End RunSpec.
(* ===================================================================== *)
(** ** More on the formatter                                              *)
(* ===================================================================== *)

Module FormatterFacts.
Import Datetime Monitor FormatterSpec.

Lemma same_fields_same_text (c c' : dict) :
  same_on_fields c c' -> format_call c' = format_call c.
Proof.
  intros H. unfold format_call, format_call_with, format_lines_with, dict_get, dict_get_or.
  rewrite <- (H "received_datetime"), <- (H "call_type_original_desc"),
    <- (H "intersection_name"), <- (H "analysis_neighborhood"),
    <- (H "agency"), <- (H "sensitive_call") by (simpl; tauto).
  reflexivity.
Qed.

(** X1. [format_call] reads six keys of the record and nothing else: two
    records that agree on them give the same text, so any other key can be
    set to anything or removed. *)
Theorem format_call_reads_six_fields (c c' : dict) :
  same_on_fields c c' ->
  format_call c' = format_call c
  ∧ (forall (k : string) (v : value),
       ¬ In k format_fields ->
       format_call (<[k := v]> c) = format_call c
       ∧ format_call (delete k c) = format_call c).
Proof.
  intros H. split; [now apply same_fields_same_text|].
  intros k v Hk. split; apply same_fields_same_text; intros k' Hk'.
  - rewrite lookup_insert_ne; [reflexivity|]. intros <-. exact (Hk Hk').
  - rewrite lookup_delete_ne; [reflexivity|]. intros <-. exact (Hk Hk').
Qed.

Lemma format_call_reads_six_fields_witness :
  same_on_fields example_call test_call
  ∧ format_call test_call = format_call example_call.
Proof.
  assert (H : same_on_fields example_call test_call).
  { intros k Hk. unfold test_call. rewrite lookup_insert_ne; [reflexivity|].
    simpl in Hk. intros <-.
    repeat (destruct Hk as [Hk|Hk]; [discriminate Hk|]). exact Hk. }
  split; [exact H|].
  exact (proj1 (format_call_reads_six_fields example_call test_call H)).
Defined.

Lemma prefix_append (p t : string) : String.prefix p (p +:+ t) = true.
Proof.
  induction p as [|a p IH].
  - destruct t; reflexivity.
  - rewrite append_cons. simpl. destruct (ascii_dec a a); [exact IH | contradiction].
Qed.

(** X2. The lines of every record carry the labels Time, Type, Location,
    Neighborhood (only for a record that is not sensitive and has a
    neighborhood) and Agency, in this order; so there are four or five lines,
    and the Neighborhood line, when there is one, holds the record's
    neighborhood. *)
Theorem format_lines_labels (call : dict) :
  exists lines : list string,
    format_lines call = Returns lines
    ∧ Forall2 (fun label l => String.prefix label l = true) (line_labels call) lines
    ∧ length lines = (if has_neighborhood call then 5 else 4)%nat
    ∧ (has_neighborhood call = true ->
       lines !! 3%nat =
         Some ("Neighborhood: " +:+ py_str (dict_get call "analysis_neighborhood")))
    ∧ (has_neighborhood call = false ->
       Forall (fun l => is_neighborhood_line l = false) lines).
Proof.
  destruct (format_lines_shape call) as [t Ht]. cbv zeta in Ht.
  unfold line_labels. fold (has_neighborhood call) in Ht.
  destruct (has_neighborhood call) eqn:Hn0; cbn [app] in Ht;
    (eexists; split; [exact Ht|]).
  - rename Hn0 into Hn. cbn [app]. split; [repeat (constructor; [apply prefix_append|]); constructor|].
    split; [reflexivity|]. split; [|discriminate].
    intros _. simpl. do 2 f_equal. unfold py_or.
    unfold has_neighborhood in Hn. apply andb_prop in Hn as [Hn _].
    unfold py_or in Hn. destruct (truthy (dict_get call "analysis_neighborhood")) eqn:E;
      [reflexivity | discriminate Hn].
  - cbn [app]. split; [repeat (constructor; [apply prefix_append|]); constructor|].
    split; [reflexivity|]. split; [discriminate|].
    intros _. repeat (constructor; [reflexivity|]). constructor.
Qed.

Lemma format_lines_labels_witness :
  has_neighborhood example_call = true
  ∧ exists lines : list string,
      format_lines example_call = Returns lines
      ∧ lines !! 3%nat = Some "Neighborhood: Castro/Upper Market".
Proof.
  assert (H : has_neighborhood example_call = true) by (vm_compute; reflexivity).
  split; [exact H|].
  destruct (format_lines_labels example_call) as (lines & Hl & _ & _ & Hnb & _).
  exists lines. split; [exact Hl|]. rewrite (Hnb H). vm_compute. reflexivity.
Defined.

End FormatterFacts.

(* ===================================================================== *)
(** ** More on the notifier                                               *)
(* ===================================================================== *)

Module NotifierFacts.
Import Monitor NotifierSpec.

(** X3. [send_notification] makes exactly one POST whatever the answer, leaves
    the state file alone, prints its line only when the message is taken,
    and raises [HTTPError] with the status for a 4xx or 5xx answer (429 as
    any other) and the transport's exception when no answer comes. *)
Theorem send_notification_outcome (net : network) (title message : string) (w : world) :
  let r := ntfy net (posts w) in
  send_notification net title message w =
    (match r with
     | Response status _ =>
         if is_error_status status then Raises (HTTPError status) else Returns tt
     | NoResponse => Raises ConnectionError
     end,
     mk_world (state_file w) (S (posts w))
       (log w ++ Post title message r
               :: (if accepted r then [Printed (PNotificationSent title)] else []))).
Proof.
  intros r. unfold send_notification, raise_for_status.
  cbv [mbind M_bind print emit mret M_ret raise]. cbn [state_file posts log].
  fold r. unfold accepted.
  destruct r as [status []|]; [|reflexivity].
  destruct (is_error_status status); cbn [negb]; world_simpl; reflexivity.
Qed.

(** The attempts of a delivery: all but the last are rate limited, the
    result is whether the last was taken, and the delivery stops before its
    last allowed attempt only on an answer other than 429. *)
Lemma attempts_shape (replies : nat -> reply unit) :
  forall len p : nat,
    (0 < len)%nat ->
    let k := attempts_made replies p len in
    (1 <= k <= len)%nat
    ∧ (forall j, (j < k - 1)%nat -> rate_limited (replies (p + j)%nat) = true)
    ∧ delivers replies p len = accepted (replies (p + (k - 1))%nat)
    ∧ ((k < len)%nat -> rate_limited (replies (p + (k - 1))%nat) = false).
Proof.
  induction len as [|len IH]; intros p Hlen; [lia|]. cbn [attempts_made delivers].
  destruct (rate_limited (replies p)) eqn:Hr.
  - destruct len as [|len'].
    + cbn [attempts_made delivers]. rewrite Nat.add_0_r.
      rewrite (rate_limited_not_accepted _ Hr).
      repeat split; intros; lia.
    + destruct (IH (S p) ltac:(lia)) as (Hk & Hlim & Hd & Hstop).
      set (k' := attempts_made replies (S p) (S len')) in *.
      replace (S k' - 1)%nat with k' by lia.
      replace (p + k')%nat with (S p + (k' - 1))%nat by lia.
      repeat split; try lia.
      * intros j Hj. destruct j as [|j]; [now rewrite Nat.add_0_r|].
        replace (p + S j)%nat with (S p + j)%nat by lia. apply Hlim. lia.
      * exact Hd.
      * intros Hlt. apply Hstop. lia.
  - cbn [Nat.sub]. rewrite Nat.add_0_r. repeat split; intros; try lia; assumption.
Qed.

(** X4. [send_notification_with_backoff] never raises and never touches the
    state file.  It makes between one and [max_retries] POSTs (none when
    [max_retries] is 0, and then answers [False]), all with the same title
    and message; every POST but the last was answered 429; the result is
    whether the last POST was taken; and it stops before [max_retries] only
    on an answer other than 429. *)
Theorem backoff_attempts (net : network) (title message : string)
    (max_retries : nat) (w : world) :
  exists (k : nat) (evs : list event),
    send_notification_with_backoff net title message max_retries w =
      (Returns (match k with
                | O => false
                | S k' => accepted (ntfy net (posts w + k'))
                end),
       mk_world (state_file w) (posts w + k) (log w ++ evs))
    ∧ (k <= max_retries)%nat
    ∧ ((0 < max_retries)%nat -> (1 <= k)%nat)
    ∧ Forall notifier_event evs
    ∧ post_events evs = map (fun q => Post title message (ntfy net q)) (seq (posts w) k)
    ∧ (forall j, (j < k - 1)%nat -> rate_limited (ntfy net (posts w + j)) = true)
    ∧ ((0 < k < max_retries)%nat -> rate_limited (ntfy net (posts w + (k - 1))) = false).
Proof.
  destruct (send_with_backoff_run net title message max_retries w)
    as (evs & Hrun & Hposts & _ & Hev).
  exists (attempts_made (ntfy net) (posts w) max_retries), evs.
  destruct max_retries as [|n].
  - cbn [attempts_made delivers] in *. rewrite Hrun.
    repeat split; intros; try lia; assumption.
  - destruct (attempts_shape (ntfy net) (S n) (posts w) ltac:(lia))
      as (Hk & Hlim & Hd & Hstop).
    set (k := attempts_made (ntfy net) (posts w) (S n)) in *.
    rewrite Hrun, Hd. destruct k as [|k']; [lia|].
    replace (S k' - 1)%nat with k' in * by lia.
    repeat split; try lia; try assumption.
    intros [_ Hlt]. now apply Hstop.
Qed.

Lemma backoff_attempts_witness :
  exists (k : nat) (evs : list event),
    send_notification_with_backoff net_two_limits "title" "message" 5 (fresh_world None) =
      (Returns true, mk_world None k evs)
    ∧ (1 <= k <= 5)%nat.
Proof.
  destruct (backoff_attempts net_two_limits "title" "message" 5 (fresh_world None))
    as (k & evs & Hrun & Hle & Hpos & _).
  exists k, evs. split; [|split; [apply Hpos; lia | exact Hle]].
  rewrite Hrun. cbn [fresh_world state_file posts log Nat.add app].
  f_equal. f_equal.
  assert (Hk : k = 3%nat).
  { assert (H := Hrun). vm_compute in H. now injection H as _ H _. }
  subst k. reflexivity.
Defined.

Lemma backoff_delay_range (k : nat) : 2 <= backoff_delay k <= 64.
Proof.
  unfold backoff_delay, max_backoff.
  pose proof (Z.pow_pos_nonneg 2 (Z.of_nat k) ltac:(lia) ltac:(lia)). lia.
Qed.

Lemma total_delays_le (j : nat) :
  forall i : nat, total (map backoff_delay (seq i j)) <= 64 * Z.of_nat j.
Proof.
  induction j as [|j IH]; intros i; [simpl; lia|].
  cbn [seq map total foldr]. fold (total (map backoff_delay (seq (S i) j))).
  pose proof (backoff_delay_range i). specialize (IH (S i)). lia.
Qed.

Lemma total_delays_five (j : nat) :
  (j <= 4)%nat -> total (map backoff_delay (seq 0 j)) <= 30.
Proof.
  intros Hj. do 5 (destruct j as [|j]; [vm_compute; discriminate|]). lia.
Qed.

(** X5. The waits of [send_notification_with_backoff]: one between two
    attempts and none after the last, each between 2 and 64 seconds; in all
    at most 64 seconds per retry, and at most 30 seconds when [max_retries]
    is 5 or less. *)
Theorem backoff_sleeps_bounded (net : network) (title message : string)
    (max_retries : nat) (w : world) :
  let r := send_notification_with_backoff net title message max_retries w in
  exists slept : list Z,
    sleeps (log r.2) = sleeps (log w) ++ slept
    ∧ length slept = (posts r.2 - posts w - 1)%nat
    ∧ Forall (fun s => 2 <= s <= 64) slept
    ∧ total slept <= 64 * Z.of_nat (max_retries - 1)
    ∧ ((max_retries <= 5)%nat -> total slept <= 30).
Proof.
  intros r. subst r.
  destruct (send_with_backoff_run net title message max_retries w)
    as (evs & -> & _ & Hsleeps & _).
  cbn [snd log posts].
  pose proof (attempts_made_le (ntfy net) max_retries (posts w)) as Hle.
  set (k := attempts_made (ntfy net) (posts w) max_retries) in *.
  change 2 with (backoff_delay 0) in Hsleeps. rewrite delays_backoff_delay in Hsleeps.
  exists (sleeps evs). rewrite sleeps_app, Hsleeps.
  split; [reflexivity|]. split; [rewrite length_map, length_seq; lia|].
  split; [|split].
  - apply Forall_forall. intros s Hs. apply list_elem_of_In, in_map_iff in Hs as (i & <- & _).
    apply backoff_delay_range.
  - pose proof (total_delays_le (k - 1) 0). lia.
  - intros H5. apply total_delays_five. lia.
Qed.

Lemma backoff_sleeps_bounded_witness :
  let r := send_notification_with_backoff net_two_limits "title" "message" 5
             (fresh_world None) in
  (5 <= 5)%nat
  ∧ exists slept : list Z,
      sleeps (log r.2) = sleeps (log (fresh_world None)) ++ slept ∧ total slept <= 30.
Proof.
  intros r. assert (H : (5 <= 5)%nat) by lia. split; [exact H|].
  destruct (backoff_sleeps_bounded net_two_limits "title" "message" 5 (fresh_world None))
    as (slept & Hs & _ & _ & _ & H30).
  exists slept. split; [exact Hs | exact (H30 H)].
Defined.

End NotifierFacts.

(* ===================================================================== *)
(** ** More on the run controller                                         *)
(* ===================================================================== *)

Module RunFacts.
Import Monitor FormatterSpec NotifierSpec RunSpec.

(** The run through the notification loop, with the loop left as it is. *)
Lemma check_notify_exact (net : network) (w : world) (tok : value) (calls : list dict) :
  http_result (metadata net) = Returns tok ->
  seen_set (state_file w) ≠ ∅ ->
  tok ≠ token (state_file w) ->
  http_result (dataset net) = Returns calls ->
  let seen := seen_set (state_file w) in
  let new := new_calls seen calls in
  let w1 := add_events w [GetMetadata; Printed PUpdateDetected; GetCalls default_limit;
                          Printed (match new with
                                   | [] => PNoNewCalls
                                   | _ :: _ => PFound (length new)
                                   end)] in
  check_and_notify net w =
    match notify_loop net (length new) 0 new [] w1 with
    | (Returns sent, w2) => save_state (mk_state (elements seen ++ sent) tok) w2
    | (Raises e, w2) => (Raises e, w2)
    end.
Proof.
  intros Hm Hseen Htok Hd seen new w1. unfold check_and_notify.
  destruct (load_state_run w) as (st & Hl & Hs & Ht).
  rewrite bind_run, Hl, bind_run, get_rows_updated_at_run, Hm, Hs, Ht.
  rewrite (bool_decide_eq_false_2 (tok = _)) by assumption.
  cbn [andb]. rewrite bind_run. cbv [print emit add_events]. world_simpl.
  rewrite bind_run, fetch_recent_calls_run, Hd. cbv [add_events]. world_simpl.
  rewrite (decide_False (P := seen_set (state_file w) = ∅)) by assumption.
  fold seen. rewrite bind_run. cbv [mret M_ret].
  replace (filter (fun c => call_id c ∉ seen) calls) with new
    by (subst new; unfold new_calls; now rewrite decide_False).
  rewrite bind_run. subst w1. cbv [add_events]. world_simpl.
  destruct new as [|c rest] eqn:Hnew.
  - rewrite (decide_True (P := seen ≠ ∅)) by assumption.
    cbv [mbind M_bind mret M_ret save_state print emit notify_loop]. world_simpl.
    reflexivity.
  - rewrite bind_run. cbv [print emit]. world_simpl. reflexivity.
Qed.

Lemma send_accepted_run (net : network) (title message : string) (w : world) :
  accepted (ntfy net (posts w)) = true ->
  send_notification_with_backoff net title message default_max_retries w =
    (Returns true,
     mk_world (state_file w) (S (posts w))
       (log w ++ [Post title message (ntfy net (posts w));
                  Printed (PNotificationSent title)])).
Proof.
  intros Hacc. unfold send_notification_with_backoff, default_max_retries.
  cbn [seq backoff_loop]. rewrite bind_run, backoff_attempt_run. cbv zeta.
  rewrite Hacc. reflexivity.
Qed.

(** The loop when the push service takes every message: one POST per
    call, in order, a pause of one second after each but the last, and every
    identifier that is not empty collected. *)
Lemma notify_loop_healthy (net : network) (n : nat) :
  (forall q, accepted (ntfy net q) = true) ->
  forall (pending : list dict) (i : nat) (sent : list value) (w : world),
    (i + length pending = n)%nat ->
    exists evs : list event,
      notify_loop net n i pending sent w =
        (Returns (sent ++ identified_ids pending),
         mk_world (state_file w) (posts w + length pending) (log w ++ evs))
      ∧ post_events evs = posts_in_order (ntfy net) (posts w) pending
      ∧ sleeps evs = replicate (length pending - 1) 1.
Proof.
  intros Hacc. induction pending as [|c rest IH]; intros i sent w Hn.
  - exists []. cbn [notify_loop identified_ids length posts_in_order].
    rewrite !app_nil_r, Nat.add_0_r, <- world_eta. repeat split.
  - cbn [notify_loop identified_ids posts_in_order length].
    rewrite bind_run. unfold lift. rewrite format_call_body, bind_run.
    rewrite (send_accepted_run net (call_title c) (call_body c) w (Hacc (posts w))).
    rewrite bind_run.
    set (sent' := if truthy (call_id c) then sent ++ [call_id c] else sent).
    set (pause := if Z.of_nat i <? Z.of_nat n - 1 then [Sleep 1] else []).
    set (sending := [Post (call_title c) (call_body c) (ntfy net (posts w));
                     Printed (PNotificationSent (call_title c))]).
    set (w1 := mk_world (state_file w) (S (posts w)) (log w ++ sending)).
    set (w2 := mk_world (state_file w) (S (posts w)) (log w ++ sending ++ pause)).
    assert (Hpause : (if Z.of_nat i <? Z.of_nat n - 1 then sleep 1 else mret ()) w1
                     = (Returns (), w2)).
    { subst w1 w2 pause. destruct (Z.of_nat i <? Z.of_nat n - 1);
        cbv [sleep emit mret M_ret]; cbn [state_file posts log];
        rewrite <- ?app_assoc, ?app_nil_r; reflexivity. }
    rewrite Hpause. cbn [length] in Hn.
    destruct (IH (S i) sent' w2 ltac:(lia)) as (evs & Hrun & Hposts & Hsleeps).
    subst w2. cbn [state_file posts log] in Hrun, Hposts.
    exists (sending ++ pause ++ evs). split; [|split].
    + rewrite Hrun. f_equal.
      * f_equal. subst sent'. destruct (truthy (call_id c));
          rewrite <- ?app_assoc; reflexivity.
      * f_equal; [lia|]. rewrite <- !app_assoc. reflexivity.
    + rewrite !post_events_app, Hposts. subst pause sending.
      destruct (Z.of_nat i <? Z.of_nat n - 1); reflexivity.
    + rewrite !sleeps_app, Hsleeps. subst pause sending.
      destruct (Z.of_nat i <? Z.of_nat n - 1) eqn:E.
      * apply Z.ltb_lt in E. destruct rest as [|c' rest']; [simpl in Hn; lia|].
        cbn [length]. rewrite !Nat.sub_succ, !Nat.sub_0_r. reflexivity.
      * apply Z.ltb_ge in E. destruct rest as [|c' rest']; [reflexivity|].
        cbn [length] in Hn. lia.
Qed.

(** What the loop collects and posts while the first deliveries are taken
    at once. *)
Lemma delivered_prefix (replies : nat -> reply unit) :
  forall (pre : list dict) (p : nat) (rest : list dict),
    (forall j, (j < length pre)%nat -> accepted (replies (p + j)%nat) = true) ->
    delivered_ids replies p (pre ++ rest) =
      identified_ids pre ++ delivered_ids replies (p + length pre) rest
    ∧ loop_posts replies p (pre ++ rest) =
        posts_in_order replies p pre ++ loop_posts replies (p + length pre) rest.
Proof.
  induction pre as [|c pre IH]; intros p rest Hacc.
  - cbn [app identified_ids posts_in_order length]. rewrite Nat.add_0_r. split; reflexivity.
  - assert (H0 : accepted (replies p) = true).
    { rewrite <- (Nat.add_0_r p). apply Hacc. cbn [length]. lia. }
    destruct (accepted_delivers replies p H0) as [Hd Hn].
    cbn [app delivered_ids loop_posts identified_ids posts_in_order length].
    rewrite Hd, Hn. replace (p + 1)%nat with (S p) by lia.
    destruct (IH (S p) rest) as [-> ->].
    { intros j Hj. replace (S p + j)%nat with (p + S j)%nat by lia.
      apply Hacc. cbn [length]. lia. }
    replace (S p + length pre)%nat with (p + S (length pre))%nat by lia.
    rewrite <- !app_assoc. split; reflexivity.
Qed.

(** The log and the result of a run, path by path. *)
Lemma run_log_shape (net : network) (file : option state) :
  let r := run net file in
  (exists e,
     http_result (metadata net) = Raises e
     ∧ r = (1, mk_world file 0 [Printed PBanner; GetMetadata; Printed (PError e)]))
  ∨ (short_circuits net file ∧ r = (0, mk_world file 0 skipped_log))
  ∨ (exists tok e,
       http_result (metadata net) = Returns tok
       ∧ ¬ short_circuits net file
       ∧ http_result (dataset net) = Raises e
       ∧ r = (1, mk_world file 0
                   [Printed PBanner; GetMetadata; Printed PUpdateDetected;
                    GetCalls default_limit; Printed (PError e)]))
  ∨ (exists tok calls,
       http_result (metadata net) = Returns tok
       ∧ http_result (dataset net) = Returns calls
       ∧ seen_set file = ∅
       ∧ r = (0, mk_world (Some (mk_state [] tok)) 0
                   [Printed PBanner; GetMetadata; Printed PUpdateDetected;
                    GetCalls default_limit;
                    Printed (PFirstRun (size (list_to_set (call_id <$> calls) : gset value)));
                    WriteState (mk_state [] tok); Printed PRunComplete]))
  ∨ (exists tok calls evs p',
       let new := new_calls (seen_set file) calls in
       let st' := mk_state (elements (seen_set file) ++ delivered_ids (ntfy net) 0 new) tok in
       http_result (metadata net) = Returns tok
       ∧ http_result (dataset net) = Returns calls
       ∧ seen_set file ≠ ∅
       ∧ tok ≠ token file
       ∧ Forall notifier_event evs
       ∧ post_events evs = loop_posts (ntfy net) 0 new
       ∧ r = (0, mk_world (Some st') p'
                   ([Printed PBanner; GetMetadata; Printed PUpdateDetected;
                     GetCalls default_limit] ++ evs
                    ++ [WriteState st'; Printed PRunComplete]))).
Proof.
  intros r. subst r. unfold run. rewrite main_run.
  set (w0 := add_events (mk_world file 0 []) [Printed PBanner]).
  destruct (http_result (metadata net)) as [tok|e] eqn:Hm.
  2:{ rewrite (check_metadata_fails net w0 e Hm). left. exists e. split; reflexivity. }
  right.
  destruct (decide (tok = token file ∧ seen_set file ≠ ∅)) as [[Ht Hs]|Hcond].
  { rewrite (check_short_circuit net w0 tok Hm Ht Hs). left.
    split; [|reflexivity]. split; [now rewrite Hm, Ht | exact Hs]. }
  right.
  assert (Hns : ¬ short_circuits net file).
  { intros [H1 H2]. rewrite Hm in H1. injection H1 as H1. tauto. }
  destruct (http_result (dataset net)) as [calls|e] eqn:Hd.
  2:{ rewrite (check_fetch_fails net w0 tok e Hm Hcond Hd). left.
      exists tok, e. repeat split; try reflexivity; exact Hns. }
  right.
  destruct (decide (seen_set file = ∅)) as [Hs|Hs].
  { rewrite (check_bootstrap net w0 tok calls Hm Hs Hd). left.
    exists tok, calls. repeat split; try reflexivity; exact Hs. }
  right. assert (Ht : tok ≠ token file) by tauto.
  destruct (check_notify net w0 tok calls Hm Hs Ht Hd) as (evs & p' & -> & Hposts & Hev).
  exists tok, calls, evs, p'. cbv zeta. repeat split; try assumption.
  cbv [add_events w0]. world_simpl. reflexivity.
Qed.

Lemma count_events_app (p : event -> bool) (l1 l2 : list event) :
  count_events p (l1 ++ l2) = (count_events p l1 + count_events p l2)%nat.
Proof.
  induction l1 as [|e l1 IH]; simpl; [reflexivity|].
  destruct (p e); simpl; now rewrite IH.
Qed.

Lemma notifier_events_count (evs : list event) :
  Forall notifier_event evs ->
  count_events is_metadata evs = 0%nat
  ∧ count_events is_fetch evs = 0%nat
  ∧ count_events is_write evs = 0%nat.
Proof.
  induction 1 as [|e evs He _ IH]; [repeat split|].
  destruct e; simpl in *; tauto.
Qed.

Lemma notifier_events_after_write (evs rest : list event) :
  Forall notifier_event evs -> after_write (evs ++ rest) = after_write rest.
Proof.
  induction 1 as [|e evs He _ IH]; [reflexivity|].
  destruct e; simpl in *; tauto.
Qed.

Lemma notifier_events_no_request (evs : list event) (e : event) :
  Forall notifier_event evs -> In e evs -> notifier_event e.
Proof.
  intros H Hin. rewrite List.Forall_forall in H. now apply H.
Qed.

Lemma In_post_events (e : event) (evs : list event) :
  In e evs -> is_post e = true -> In e (post_events evs).
Proof.
  induction evs as [|e' evs IH]; simpl; [tauto|].
  intros [->|Hin] Hp.
  - rewrite Hp. now left.
  - destruct (is_post e'); [right|]; now apply IH.
Qed.

Lemma loop_posts_In (replies : nat -> reply unit) :
  forall (pending : list dict) (p : nat) (e : event),
    In e (loop_posts replies p pending) ->
    exists (c : dict) (q : nat),
      In c pending ∧ e = Post (call_title c) (call_body c) (replies q).
Proof.
  induction pending as [|c rest IH]; intros p e; cbn [loop_posts]; [intros []|].
  intros Hin. apply in_app_or in Hin as [Hin|Hin].
  - apply in_map_iff in Hin as (q & <- & _). exists c, q. split; [now left | reflexivity].
  - destruct (delivers replies p default_max_retries); [|destruct Hin].
    destruct (IH _ _ Hin) as (c' & q & Hc' & He). exists c', q. split; [now right | exact He].
Qed.

Lemma loop_posts_length (replies : nat -> reply unit) :
  forall (pending : list dict) (p : nat),
    (length (loop_posts replies p pending) <= 5 * length pending)%nat.
Proof.
  induction pending as [|c rest IH]; intros p; cbn [loop_posts length]; [lia|].
  rewrite length_app, length_map, length_seq.
  pose proof (attempts_made_le replies default_max_retries p) as Hle.
  unfold default_max_retries in Hle at 2.
  destruct (delivers replies p default_max_retries).
  - specialize (IH (p + attempts_made replies p default_max_retries)%nat). lia.
  - cbn [length]. lia.
Qed.

(** X6. Every POST of a run carries the title and the message of a fetched
    record whose identity was not in the seen-set when the run began; a run
    never posts for a record it has already recorded, nor when the seen-set
    is empty. *)
Theorem posts_only_for_new_calls (net : network) (file : option state)
    (title message : string) (rp : reply unit) :
  In (Post title message rp) (log (run net file).2) ->
  exists (calls : list dict) (c : dict) (q : nat),
    http_result (dataset net) = Returns calls
    ∧ In c calls
    ∧ (call_id c ∉ seen_set file)
    ∧ seen_set file ≠ ∅
    ∧ title = call_title c ∧ message = call_body c ∧ rp = ntfy net q.
Proof.
  intros Hin. apply In_post_events in Hin; [|reflexivity].
  destruct (run_cases net file)
    as [[_ Hp] | [(tok & calls & _ & _ & _ & _ & _ & Hp)
                 | (tok & calls & _ & Hd & Hs & _ & _ & _ & Hp)]];
    rewrite Hp in Hin; try destruct Hin.
  apply loop_posts_In in Hin as (c & q & Hc & [= -> -> ->]).
  apply new_calls_In in Hc as (_ & Hnew & Hc).
  exists calls, c, q. repeat split; assumption.
Qed.

Lemma posts_only_for_new_calls_witness :
  let r := run net_one_new state_A in
  In (Post (call_title (call_with_id "B")) (call_body (call_with_id "B")) (Response 200 tt))
     (log r.2)
  ∧ exists (calls : list dict) (c : dict),
      http_result (dataset net_one_new) = Returns calls
      ∧ In c calls ∧ (call_id c ∉ seen_set state_A)
      ∧ call_title (call_with_id "B") = call_title c.
Proof.
  intros r.
  assert (H : In (Post (call_title (call_with_id "B")) (call_body (call_with_id "B"))
                    (Response 200 tt)) (log r.2)).
  { vm_compute. do 5 right. left. reflexivity. }
  split; [exact H|].
  destruct (posts_only_for_new_calls net_one_new state_A _ _ _ H)
    as (calls & c & q & Hd & Hc & Hn & _ & Ht & _).
  exists calls, c. repeat split; assumption.
Defined.

(** X7. A run makes at most five POSTs for each record fetched, and none when
    the record fetch did not succeed. *)
Theorem posts_bounded (net : network) (file : option state) :
  (length (post_events (log (run net file).2)) <= 5 * length (fetched net))%nat.
Proof.
  destruct (run_cases net file)
    as [[_ Hp] | [(tok & calls & _ & _ & _ & _ & _ & Hp)
                 | (tok & calls & _ & Hd & Hs & _ & _ & _ & Hp)]];
    rewrite Hp; cbn [length]; try lia.
  unfold fetched. rewrite Hd.
  pose proof (loop_posts_length (ntfy net) (new_calls (seen_set file) calls) 0).
  assert (length (new_calls (seen_set file) calls) <= length calls)%nat.
  { unfold new_calls. destruct (decide _); [cbn [length]; lia | apply length_filter]. }
  lia.
Qed.

(** X8. The requests of a run: it starts with the banner and one metadata GET
    and makes no other; it makes at most one record GET, for 200 records,
    and none when it short-circuits or the metadata GET fails. *)
Theorem requests_of_a_run (net : network) (file : option state) :
  exists rest : list event,
    log (run net file).2 = Printed PBanner :: GetMetadata :: rest
    ∧ count_events is_metadata rest = 0%nat
    ∧ (count_events is_fetch rest <= 1)%nat
    ∧ (forall limit, In (GetCalls limit) rest -> limit = 200)
    ∧ (short_circuits net file -> count_events is_fetch rest = 0%nat)
    ∧ ((exists e, http_result (metadata net) = Raises e) ->
       count_events is_fetch rest = 0%nat).
Proof.
  destruct (run_log_shape net file)
    as [(e & Hm & ->) | [(Hsc & ->) | [(tok & e & Hm & Hns & Hd & ->)
       | [(tok & calls & Hm & Hd & Hs & ->)
         | (tok & calls & evs & p' & Hm & Hd & Hs & Ht & Hev & Hp & ->)]]]];
    cbn [snd log app]; eexists; (split; [reflexivity|]).
  - repeat split; simpl; try lia. intros limit [H|[]]; discriminate.
  - repeat split; simpl; try lia. intros limit [H|[H|[]]]; discriminate.
  - repeat split; simpl; try lia.
    + intros limit [H|[H|[H|[]]]]; try discriminate. now injection H as <-.
    + tauto.
    + intros [e' He']. congruence.
  - repeat split; simpl; try lia.
    + intros limit Hin. repeat (destruct Hin as [Hin|Hin]; try discriminate).
      * now injection Hin as <-.
      * destruct Hin.
    + intros [H1 H2]. now exfalso.
    + intros [e' He']. congruence.
  - destruct (notifier_events_count evs Hev) as (Hc1 & Hc2 & Hc3).
    cbn [count_events is_metadata is_fetch]. rewrite !count_events_app, Hc1, Hc2.
    repeat split; simpl; try lia.
    + intros limit [H|[H|Hin]]; try discriminate; [now injection H as <-|].
      apply in_app_or in Hin as [Hin|Hin].
      * pose proof (notifier_events_no_request _ _ Hev Hin) as H. destruct H.
      * repeat (destruct Hin as [Hin|Hin]; try discriminate). destruct Hin.
    + intros [H1 H2]. rewrite Hm in H1. injection H1 as H1. now exfalso.
    + intros [e' He']. congruence.
Qed.

Lemma requests_of_a_run_witness :
  short_circuits net_unchanged state_A
  ∧ exists rest : list event,
      log (run net_unchanged state_A).2 = Printed PBanner :: GetMetadata :: rest
      ∧ count_events is_fetch rest = 0%nat.
Proof.
  assert (H : short_circuits net_unchanged state_A).
  { split; [reflexivity | by_decide]. }
  split; [exact H|].
  destruct (requests_of_a_run net_unchanged state_A) as (rest & Hl & _ & _ & _ & Hs & _).
  exists rest. split; [exact Hl | exact (Hs H)].
Defined.

(** X9. A run writes the state file at most once, after all its POSTs: what
    follows the write is at most the line that the run is complete.  What it
    writes is the state the run leaves, and a run that short-circuits or
    exits with code 1 writes nothing. *)
Theorem state_written_once_at_the_end (net : network) (file : option state) :
  let r := run net file in
  (count_events is_write (log r.2) <= 1)%nat
  ∧ (after_write (log r.2) = [] ∨ after_write (log r.2) = [Printed PRunComplete])
  ∧ (forall st, In (WriteState st) (log r.2) -> state_file r.2 = Some st)
  ∧ (count_events is_write (log r.2) = 0%nat -> state_file r.2 = file)
  ∧ (short_circuits net file -> count_events is_write (log r.2) = 0%nat)
  ∧ (r.1 = 1 -> count_events is_write (log r.2) = 0%nat).
Proof.
  intros r. subst r.
  destruct (run_log_shape net file)
    as [(e & Hm & ->) | [(Hsc & ->) | [(tok & e & Hm & Hns & Hd & ->)
       | [(tok & calls & Hm & Hd & Hs & ->)
         | (tok & calls & evs & p' & Hm & Hd & Hs & Ht & Hev & Hp & ->)]]]];
    cbn [fst snd log state_file].
  - repeat split; simpl; try lia; try tauto.
    intros st Hin. repeat (destruct Hin as [Hin|Hin]; try discriminate). destruct Hin.
  - repeat split; simpl; try lia; try tauto.
    intros st Hin. repeat (destruct Hin as [Hin|Hin]; try discriminate). destruct Hin.
  - repeat split; simpl; try lia; try tauto.
    intros st Hin. repeat (destruct Hin as [Hin|Hin]; try discriminate). destruct Hin.
  - repeat split; simpl; try lia; try tauto; try discriminate.
    + intros st Hin. repeat (destruct Hin as [Hin|Hin]; try discriminate).
      * now injection Hin as <-.
      * destruct Hin.
    + intros [H1 H2]. now exfalso.
  - destruct (notifier_events_count evs Hev) as (_ & _ & Hc).
    cbn [app count_events is_write after_write].
    rewrite !count_events_app, Hc, (notifier_events_after_write _ _ Hev).
    repeat split; simpl; try lia; try tauto; try discriminate.
    + intros st [H|[H|[H|[H|Hin]]]]; try discriminate.
      apply in_app_or in Hin as [Hin|Hin].
      * pose proof (notifier_events_no_request _ _ Hev Hin) as H. destruct H.
      * repeat (destruct Hin as [Hin|Hin]; try discriminate);
          [now injection Hin as <- | destruct Hin].
    + intros [H1 H2]. rewrite Hm in H1. injection H1 as H1. now exfalso.
Qed.

Lemma state_written_once_at_the_end_witness :
  let r := run net_one_new state_A in
  In (WriteState (mk_state [VStr "A"; VStr "B"] (VStr "t2"))) (log r.2)
  ∧ state_file r.2 = Some (mk_state [VStr "A"; VStr "B"] (VStr "t2")).
Proof.
  intros r.
  assert (H : In (WriteState (mk_state [VStr "A"; VStr "B"] (VStr "t2"))) (log r.2)).
  { vm_compute. do 7 right. left. reflexivity. }
  split; [exact H|].
  exact (proj1 (proj2 (proj2 (state_written_once_at_the_end net_one_new state_A))) _ H).
Defined.

(** X10. The exit code is 1 exactly when the metadata GET or the record GET
    fails, and 0 otherwise: what the push service answers never changes it. *)
Theorem exit_code_of_a_run (net : network) (file : option state) :
  ((run net file).1 = 0 ∨ (run net file).1 = 1)
  ∧ ((run net file).1 = 1 <-> upstream_fails net file)
  ∧ (forall net' : network,
       metadata net' = metadata net -> dataset net' = dataset net ->
       (run net' file).1 = (run net file).1).
Proof.
  assert (Hcode : forall n, (run n file).1 = 0 ∨ (run n file).1 = 1).
  { intros n. destruct (run_log_shape n file)
      as [(e & _ & ->) | [(_ & ->) | [(tok & e & _ & _ & _ & ->)
         | [(tok & calls & _ & _ & _ & ->)
           | (tok & calls & evs & p' & _ & _ & _ & _ & _ & _ & ->)]]]]; simpl; tauto. }
  assert (Hiff : forall n, (run n file).1 = 1 <-> upstream_fails n file).
  { intros n. unfold upstream_fails.
    destruct (run_log_shape n file)
      as [(e & Hm & ->) | [(Hsc & ->) | [(tok & e & Hm & Hns & Hd & ->)
         | [(tok & calls & Hm & Hd & Hs & ->)
           | (tok & calls & evs & p' & Hm & Hd & Hs & Ht & _ & _ & ->)]]]];
      cbn [fst]; split; try discriminate; try tauto.
    - intros _. left. now exists e.
    - intros [[e He]|[Hns _]]; [destruct Hsc as [Hsc _]; congruence | tauto].
    - intros _. right. split; [exact Hns | now exists e].
    - intros [[e He]|[_ [e He]]]; congruence.
    - intros [[e He]|[_ [e He]]]; congruence. }
  split; [apply Hcode|]. split; [apply Hiff|].
  intros net' Hm Hd.
  assert (Hsame : upstream_fails net' file <-> upstream_fails net file).
  { unfold upstream_fails, short_circuits. rewrite Hm, Hd. reflexivity. }
  destruct (Hcode net') as [H'|H']; destruct (Hcode net) as [H|H]; rewrite H', H;
    try reflexivity; exfalso.
  - apply Hiff, Hsame, Hiff in H. rewrite H in H'. discriminate.
  - apply Hiff, Hsame, Hiff in H'. rewrite H' in H. discriminate.
Qed.

Lemma exit_code_of_a_run_witness :
  (run net_metadata_down state_A).1 = 1 ∧ upstream_fails net_metadata_down state_A.
Proof.
  assert (H : (run net_metadata_down state_A).1 = 1) by reflexivity.
  split; [exact H|].
  exact (proj1 (proj1 (proj2 (exit_code_of_a_run net_metadata_down state_A))) H).
Defined.

(** X11. After a run that exits with code 0 the token in the state file is the
    one the metadata GET returned in that run. *)
Theorem token_recorded (net : network) (file : option state) :
  (run net file).1 = 0 ->
  http_result (metadata net) = Returns (token (state_file (run net file).2)).
Proof.
  destruct (run_log_shape net file)
    as [(e & Hm & ->) | [(Hsc & ->) | [(tok & e & Hm & Hns & Hd & ->)
       | [(tok & calls & Hm & Hd & Hs & ->)
         | (tok & calls & evs & p' & Hm & Hd & Hs & Ht & _ & _ & ->)]]]];
    cbn [fst snd state_file token rows_updated_at]; try discriminate; intros _.
  - exact (proj1 Hsc).
  - exact Hm.
  - exact Hm.
Qed.

Lemma token_recorded_witness :
  (run net_first_run None).1 = 0
  ∧ http_result (metadata net_first_run) =
      Returns (token (state_file (run net_first_run None).2)).
Proof.
  assert (H : (run net_first_run None).1 = 0) by reflexivity.
  split; [exact H|]. exact (token_recorded net_first_run None H).
Defined.

Lemma identified_ids_In (cs : list dict) (v : value) :
  In v (identified_ids cs) <->
  truthy v = true ∧ exists c, In c cs ∧ call_id c = v.
Proof.
  induction cs as [|c cs IH]; cbn [identified_ids].
  - split; [intros [] | intros (_ & c & [] & _)].
  - rewrite in_app_iff, IH. split.
    + intros [Hin|(Ht & c' & Hc' & Hid)].
      * destruct (truthy (call_id c)) eqn:E; [|destruct Hin].
        destruct Hin as [<-|[]]. split; [exact E|]. exists c. split; [now left|reflexivity].
      * split; [exact Ht|]. exists c'. split; [now right | exact Hid].
    + intros (Ht & c' & [<-|Hc'] & Hid).
      * left. subst v. rewrite Ht. now left.
      * right. split; [exact Ht|]. now exists c'.
Qed.

(** X12. When the push service takes every message, a run that reaches the
    notification loop posts once for each new call, in the order in which
    the calls were fetched, and pauses one second after each but the last. *)
Theorem healthy_run_order (net : network) (file : option state) (tok : value)
    (calls : list dict) :
  http_result (metadata net) = Returns tok ->
  http_result (dataset net) = Returns calls ->
  seen_set file ≠ ∅ -> tok ≠ token file ->
  (forall q, accepted (ntfy net q) = true) ->
  let r := run net file in
  let new := new_calls (seen_set file) calls in
  post_events (log r.2) = posts_in_order (ntfy net) 0 new
  ∧ sleeps (log r.2) = replicate (length new - 1) 1
  ∧ posts r.2 = length new.
Proof.
  intros Hm Hd Hs Ht Hacc r new. subst r. unfold run. rewrite main_run.
  set (w0 := add_events (mk_world file 0 []) [Printed PBanner]).
  rewrite (check_notify_exact net w0 tok calls Hm Hs Ht Hd). cbv zeta.
  change (seen_set (state_file w0)) with (seen_set file). fold new.
  set (w1 := add_events w0 _).
  destruct (notify_loop_healthy net (length new) Hacc new 0 [] w1 eq_refl)
    as (evs & -> & Hposts & Hsleeps).
  cbv [save_state add_events]. cbn [fst snd state_file posts log].
  subst w1 w0. cbv [add_events] in *. cbn [state_file posts log] in *.
  rewrite !post_events_app, !sleeps_app, Hposts, Hsleeps.
  destruct new; cbn; rewrite ?app_nil_r; repeat split.
Qed.

Lemma healthy_run_order_witness :
  let r := run net_healthy state_A in
  post_events (log r.2) =
    posts_in_order (ntfy net_healthy) 0
      [call_with_id "B"; call_without_id; call_with_id "C"]
  ∧ sleeps (log r.2) = [1; 1].
Proof.
  intros r.
  assert (Hs : seen_set state_A ≠ ∅) by by_decide.
  assert (Ht : VStr "t2" ≠ token state_A) by discriminate.
  destruct (healthy_run_order net_healthy state_A (VStr "t2") _ eq_refl eq_refl Hs Ht
              (fun q => eq_refl)) as (H1 & H2 & _).
  fold r in H1, H2. split; [rewrite H1 | rewrite H2]; vm_compute; reflexivity.
Defined.

(** X13. When the push service takes every message, one run brings the seen-set
    up to date: afterwards it holds, besides what it held, the identifier of
    every fetched record that has one, and only records without an
    identifier are still new. *)
Theorem healthy_run_catches_up (net : network) (file : option state) (tok : value)
    (calls : list dict) :
  http_result (metadata net) = Returns tok ->
  http_result (dataset net) = Returns calls ->
  seen_set file ≠ ∅ -> tok ≠ token file ->
  (forall q, accepted (ntfy net q) = true) ->
  let seen' := seen_set (state_file (run net file).2) in
  seen' = seen_set file ∪ list_to_set (identified_ids calls)
  ∧ (forall c, In c calls -> truthy (call_id c) = true -> call_id c ∈ seen')
  ∧ (forall c, In c (new_calls seen' calls) -> truthy (call_id c) = false).
Proof.
  intros Hm Hd Hs Ht Hacc seen'.
  destruct (run_notify net file tok calls Hm Hd Hs Ht) as (_ & Hst & _).
  destruct (delivered_prefix (ntfy net) (new_calls (seen_set file) calls) 0 []
              (fun j _ => Hacc _)) as [Hids _].
  rewrite app_nil_r in Hids. cbn [delivered_ids] in Hids. rewrite app_nil_r in Hids.
  assert (Hseen : seen' = seen_set file ∪ list_to_set (identified_ids calls)).
  { subst seen'. rewrite Hst, Hids. cbn [seen_set seen_ids].
    rewrite list_to_set_app_L, list_to_set_elements_L.
    apply set_eq. intros x. rewrite !elem_of_union, !elem_of_list_to_set, !list_elem_of_In.
    rewrite !identified_ids_In. split.
    - intros [H|(Hx & c & Hc & Hid)]; [now left|]. right. split; [exact Hx|].
      exists c. split; [|exact Hid]. now apply new_calls_In in Hc.
    - intros [H|(Hx & c & Hc & Hid)]; [now left|].
      destruct (decide (x ∈ seen_set file)) as [Hin|Hnin]; [now left|]. right.
      split; [exact Hx|]. exists c. split; [|exact Hid].
      apply new_calls_In. subst x. repeat split; assumption. }
  assert (Hall : forall c, In c calls -> truthy (call_id c) = true -> call_id c ∈ seen').
  { intros c Hc Hid. rewrite Hseen. apply elem_of_union_r, elem_of_list_to_set.
    apply list_elem_of_In, identified_ids_In. split; [exact Hid|]. now exists c. }
  split; [exact Hseen|]. split; [exact Hall|].
  intros c Hc. apply new_calls_In in Hc as (_ & Hnin & Hc).
  destruct (truthy (call_id c)) eqn:E; [|reflexivity].
  exfalso. apply Hnin. now apply Hall.
Qed.

Lemma healthy_run_catches_up_witness :
  let seen' := seen_set (state_file (run net_healthy state_A).2) in
  seen' = {[VStr "A"; VStr "B"; VStr "C"]}
  ∧ new_calls seen' (fetched net_healthy) = [call_without_id].
Proof.
  intros seen'.
  assert (Hs : seen_set state_A ≠ ∅) by by_decide.
  assert (Ht : VStr "t2" ≠ token state_A) by discriminate.
  destruct (healthy_run_catches_up net_healthy state_A (VStr "t2") _ eq_refl eq_refl Hs Ht
              (fun q => eq_refl)) as (H1 & _ & _).
  fold seen' in H1. split; [rewrite H1; by_decide|].
  subst seen'. vm_compute. reflexivity.
Defined.

(** X14. The loop stops at the first delivery that fails for good, wherever it
    is: the calls before it, all taken at once, are posted in order and
    their identifiers recorded; the failing call gets between one and five
    POSTs; the calls after it get none and nothing of them is recorded. *)
Theorem stops_at_first_failure (net : network) (file : option state) (tok : value)
    (calls pre post : list dict) (c : dict) :
  http_result (metadata net) = Returns tok ->
  http_result (dataset net) = Returns calls ->
  seen_set file ≠ ∅ -> tok ≠ token file ->
  new_calls (seen_set file) calls = pre ++ c :: post ->
  (forall q, (q < length pre)%nat -> accepted (ntfy net q) = true) ->
  fails_permanently net (length pre) ->
  let r := run net file in
  seen_set (state_file r.2) = seen_set file ∪ list_to_set (identified_ids pre)
  ∧ exists tries : nat,
      (1 <= tries <= 5)%nat
      ∧ post_events (log r.2) =
          posts_in_order (ntfy net) 0 pre
          ++ map (fun q => Post (call_title c) (call_body c) (ntfy net q))
               (seq (length pre) tries).
Proof.
  intros Hm Hd Hs Ht Hnew Hacc Hfail r.
  destruct (run_notify net file tok calls Hm Hd Hs Ht) as (_ & Hst & Hposts).
  fold r in Hst, Hposts. rewrite Hnew in Hst, Hposts.
  destruct (delivered_prefix (ntfy net) pre 0 (c :: post) Hacc) as [Hids Hlp].
  destruct (fails_permanently_delivers net (length pre) Hfail) as [Hdel Htries].
  cbn [Nat.add delivered_ids loop_posts] in Hids, Hlp.
  rewrite Hdel in Hids, Hlp. rewrite app_nil_r in Hids. rewrite app_nil_r in Hlp.
  split.
  - rewrite Hst, Hids. cbn [seen_set seen_ids].
    now rewrite list_to_set_app_L, list_to_set_elements_L.
  - exists (attempts_made (ntfy net) (length pre) default_max_retries).
    split; [exact Htries|]. now rewrite Hposts, Hlp.
Qed.

Lemma stops_at_first_failure_witness :
  let r := run net_third_fails state_A in
  seen_set (state_file r.2) = {[VStr "A"; VStr "B"; VStr "C"]}
  ∧ length (post_events (log r.2)) = 3%nat.
Proof.
  intros r.
  assert (Hs : seen_set state_A ≠ ∅) by by_decide.
  assert (Ht : VStr "t2" ≠ token state_A) by discriminate.
  assert (Hnew : new_calls (seen_set state_A)
                   [call_with_id "B"; call_with_id "C"; call_with_id "D";
                    call_with_id "E"; call_with_id "A"]
                 = [call_with_id "B"; call_with_id "C"] ++ call_with_id "D"
                   :: [call_with_id "E"]) by (vm_compute; reflexivity).
  assert (Hacc : forall q, (q < length [call_with_id "B"; call_with_id "C"])%nat ->
                           accepted (ntfy net_third_fails q) = true).
  { intros q Hq. cbn [length] in Hq. destruct q as [|[|q]]; [reflexivity|reflexivity|lia]. }
  assert (Hfail : fails_permanently net_third_fails
                    (length [call_with_id "B"; call_with_id "C"])).
  { left. exists 0%nat. split; [unfold default_max_retries; lia|].
    split; [intros j Hj; lia | reflexivity]. }
  destruct (stops_at_first_failure net_third_fails state_A (VStr "t2") _ _ _ _
              eq_refl eq_refl Hs Ht Hnew Hacc Hfail) as (H1 & tries & _ & H2).
  fold r in H1. split; [rewrite H1; by_decide|]. vm_compute. reflexivity.
Defined.

Lemma seen_subset_run (net : network) (file : option state) :
  seen_set file ⊆ seen_set (state_file (run net file).2).
Proof.
  destruct (run_cases net file)
    as [[Hst _] | [(tok & calls & _ & _ & Hs & _ & Hst & _)
                  | (tok & calls & _ & _ & _ & _ & _ & Hst & _)]];
    rewrite Hst.
  - reflexivity.
  - rewrite Hs. apply empty_subseteq.
  - cbn [seen_set seen_ids]. rewrite list_to_set_app_L, list_to_set_elements_L.
    apply union_subseteq_l.
Qed.

(** X15. With no identifier in the state file, or no state file, no sequence of
    runs ever makes a POST or records an identifier, whatever the dataset and
    the push service do. *)
Theorem never_notifies_from_empty (nets : list network) :
  forall file : option state,
    seen_set file = ∅ ->
    seen_set (run_sequence nets file).1 = ∅
    ∧ post_events (run_sequence nets file).2 = [].
Proof.
  induction nets as [|net rest IH]; intros file Hs; cbn [run_sequence fst snd].
  - split; [exact Hs | reflexivity].
  - rewrite post_events_app.
    destruct (run_cases net file)
      as [[Hst Hp] | [(tok & calls & _ & _ & _ & _ & Hst & Hp)
                     | (tok & calls & _ & _ & Hne & _)]];
      [| |contradiction]; rewrite Hp; apply IH; rewrite Hst; [exact Hs | reflexivity].
Qed.

Lemma never_notifies_from_empty_witness :
  seen_set None = ∅
  ∧ seen_set (run_sequence [net_first_run; net_one_new; net_healthy] None).1 = ∅
  ∧ post_events (run_sequence [net_first_run; net_one_new; net_healthy] None).2 = [].
Proof.
  assert (H : seen_set None = ∅) by reflexivity.
  split; [exact H|].
  exact (never_notifies_from_empty [net_first_run; net_one_new; net_healthy] None H).
Defined.

(** X16. Over any sequence of runs the seen-set only grows, and a seen-set
    without null or empty identifiers stays without them. *)
Theorem seen_set_grows_over_runs (nets : list network) :
  forall file : option state,
    seen_set file ⊆ seen_set (run_sequence nets file).1
    ∧ (all_identified file -> all_identified (run_sequence nets file).1).
Proof.
  induction nets as [|net rest IH]; intros file; cbn [run_sequence fst].
  - split; [reflexivity | tauto].
  - destruct (IH (state_file (run net file).2)) as [Hsub Hid]. split.
    + etrans; [apply seen_subset_run | exact Hsub].
    + intros H. apply Hid. now apply all_identified_run.
Qed.

Lemma seen_set_grows_over_runs_witness :
  all_identified state_A
  ∧ all_identified (run_sequence [net_one_new; net_healthy] state_A).1.
Proof.
  assert (H : all_identified state_A).
  { intros id Hin. simpl in Hin.
    apply elem_of_union in Hin as [Hin%elem_of_singleton|Hin%not_elem_of_empty];
      [now subst | contradiction]. }
  split; [exact H|].
  exact (proj2 (seen_set_grows_over_runs [net_one_new; net_healthy] state_A) H).
Defined.

(** X17. An update that brings no new call only moves the token: when
    every fetched record is already in the seen-set, the run posts nothing,
    keeps the seen-set as it is and records the new token. *)
Theorem update_without_new_calls (net : network) (file : option state) (tok : value)
    (calls : list dict) :
  http_result (metadata net) = Returns tok ->
  http_result (dataset net) = Returns calls ->
  seen_set file ≠ ∅ -> tok ≠ token file ->
  (forall c, In c calls -> call_id c ∈ seen_set file) ->
  let r := run net file in
  r.1 = 0
  ∧ post_events (log r.2) = []
  ∧ seen_set (state_file r.2) = seen_set file
  ∧ token (state_file r.2) = tok.
Proof.
  intros Hm Hd Hs Ht Hall r.
  destruct (run_notify net file tok calls Hm Hd Hs Ht) as (H0 & Hst & Hposts).
  fold r in H0, Hst, Hposts.
  assert (Hnew : new_calls (seen_set file) calls = []).
  { destruct (new_calls (seen_set file) calls) as [|c rest] eqn:E; [reflexivity|].
    assert (Hc : In c (new_calls (seen_set file) calls)) by (rewrite E; now left).
    apply new_calls_In in Hc as (_ & Hnin & Hc). exfalso. apply Hnin. now apply Hall. }
  rewrite Hnew in Hst, Hposts. cbn [delivered_ids loop_posts] in Hst, Hposts.
  split; [exact H0|]. split; [exact Hposts|]. rewrite Hst.
  cbn [seen_set seen_ids token rows_updated_at].
  rewrite app_nil_r, list_to_set_elements_L. split; reflexivity.
Qed.

Lemma update_without_new_calls_witness :
  let net := mk_network (Response 200 (VStr "t2")) (Response 200 [call_with_id "A"])
               (fun _ => Response 500 tt) in
  let r := run net state_A in
  r.1 = 0 ∧ post_events (log r.2) = [] ∧ token (state_file r.2) = VStr "t2".
Proof.
  intros net r.
  assert (Hs : seen_set state_A ≠ ∅) by by_decide.
  assert (Ht : VStr "t2" ≠ token state_A) by discriminate.
  assert (Hall : forall c, In c [call_with_id "A"] -> call_id c ∈ seen_set state_A).
  { intros c [<-|[]]. by_decide. }
  destruct (update_without_new_calls net state_A (VStr "t2") _ eq_refl eq_refl Hs Ht Hall)
    as (H0 & Hp & _ & Htok).
  split; [exact H0|]. split; [exact Hp | exact Htok].
Defined.

End RunFacts.
